(** * The image-analysis result cache of [scripts/image_cache.py]

    A shallow embedding of the class [ImageAnalysisCache] and proofs of the
    properties its specification states about it.

    Python values are modelled as follows.
    - [str] is [string], the UTF-8 bytes of the text; [str.encode()] is the
      list of its bytes.  A [str] that UTF-8 cannot encode (one with a lone
      surrogate) is not such a string: the module [Unicode] at the end models
      [str] as code points and the fingerprinting, [get] and [set] on it, with
      the [UnicodeEncodeError] of [str.encode()].
    - [bytes] is [list byte].
    - The values [json.load] can return ([None], [bool], [int], [float], [str],
      [list], [dict] with string keys) are the type [json]; a [dict] is a
      [gmap string json].
    - An operation that can raise returns an [outcome]; the methods of the
      class run in a state-and-exception monad over the object and its file.
    - [hashlib.md5] is implemented (RFC 1321) and checked on test vectors.
    - [datetime] is an interface ([DateTime]); the float arithmetic of
      [get_stats] uses binary64 primitive floats.
    Console output ([print]) is not modelled. *)

From Stdlib Require Import ZArith Floats Uint63 Ascii String DecimalString.
From Stdlib Require Import Strings.Byte.
From stdpp Require Import gmap strings list fin_maps.

Local Open Scope Z_scope.

(** ** Python string operations used by the class *)

Module Str.

(** [s.endswith(suffix)] *)
Fixpoint endswith (s suffix : string) : bool :=
  if String.eqb s suffix then true
  else match s with
       | EmptyString => false
       | String _ s' => endswith s' suffix
       end.

(** [s.partition(sep)] for a one-character separator: the text before the
    first occurrence and the text after it, when there is one. *)
Fixpoint cut (sep : ascii) (s : string) : option (string * string) :=
  match s with
  | EmptyString => None
  | String c s' =>
      if Ascii.eqb c sep then Some (EmptyString, s')
      else match cut sep s' with
           | Some (a, b) => Some (String c a, b)
           | None => None
           end
  end.

(** [s.split(sep, 1)] for a one-character separator. *)
Definition split1 (sep : ascii) (s : string) : list string :=
  match cut sep s with
  | Some (a, b) => [a; b]
  | None => [s]
  end.

(** [needle in haystack] on two strings. *)
Fixpoint contains (haystack needle : string) : bool :=
  if String.prefix needle haystack then true
  else match haystack with
       | EmptyString => false
       | String _ h => contains h needle
       end.

(** [s.count(c)] for a character. *)
Fixpoint count (c : ascii) (s : string) : nat :=
  match s with
  | EmptyString => 0%nat
  | String d s' => ((if Ascii.eqb d c then 1 else 0) + count c s')%nat
  end.

(** Every character of [s] satisfies [p]. *)
Fixpoint all (p : ascii -> bool) (s : string) : bool :=
  match s with
  | EmptyString => true
  | String c s' => p c && all p s'
  end.

(** [s.encode()] *)
Definition encode (s : string) : list byte := String.list_byte_of_string s.

(** [len(s)]: the number of code points, which is the number of bytes of the
    UTF-8 text that are not continuation bytes (10xxxxxx). *)
Fixpoint code_points (s : string) : nat :=
  match s with
  | EmptyString => 0%nat
  | String c s' =>
      let n := N_of_ascii c in
      ((if ((128 <=? n) && (n <? 192))%N then 0 else 1) + code_points s')%nat
  end.

End Str.

(** ** [hashlib.md5] *)

Module MD5.

Definition wrap32 (x : Z) : Z := x mod 2 ^ 32.
Definition not32 (x : Z) : Z := Z.lxor x 0xffffffff.
Definition rotl32 (x c : Z) : Z :=
  wrap32 (Z.lor (Z.shiftl x c) (Z.shiftr x (32 - c))).

Definition s_table : list Z :=
  [7; 12; 17; 22; 7; 12; 17; 22; 7; 12; 17; 22; 7; 12; 17; 22;
   5;  9; 14; 20; 5;  9; 14; 20; 5;  9; 14; 20; 5;  9; 14; 20;
   4; 11; 16; 23; 4; 11; 16; 23; 4; 11; 16; 23; 4; 11; 16; 23;
   6; 10; 15; 21; 6; 10; 15; 21; 6; 10; 15; 21; 6; 10; 15; 21].

Definition K_table : list Z :=
  [0xd76aa478; 0xe8c7b756; 0x242070db; 0xc1bdceee;
   0xf57c0faf; 0x4787c62a; 0xa8304613; 0xfd469501;
   0x698098d8; 0x8b44f7af; 0xffff5bb1; 0x895cd7be;
   0x6b901122; 0xfd987193; 0xa679438e; 0x49b40821;
   0xf61e2562; 0xc040b340; 0x265e5a51; 0xe9b6c7aa;
   0xd62f105d; 0x02441453; 0xd8a1e681; 0xe7d3fbc8;
   0x21e1cde6; 0xc33707d6; 0xf4d50d87; 0x455a14ed;
   0xa9e3e905; 0xfcefa3f8; 0x676f02d9; 0x8d2a4c8a;
   0xfffa3942; 0x8771f681; 0x6d9d6122; 0xfde5380c;
   0xa4beea44; 0x4bdecfa9; 0xf6bb4b60; 0xbebfbc70;
   0x289b7ec6; 0xeaa127fa; 0xd4ef3085; 0x04881d05;
   0xd9d4d039; 0xe6db99e5; 0x1fa27cf8; 0xc4ac5665;
   0xf4292244; 0x432aff97; 0xab9423a7; 0xfc93a039;
   0x655b59c3; 0x8f0ccc92; 0xffeff47d; 0x85845dd1;
   0x6fa87e4f; 0xfe2ce6e0; 0xa3014314; 0x4e0811a1;
   0xf7537e82; 0xbd3af235; 0x2ad7d2bb; 0xeb86d391].

Definition byte_val (b : byte) : Z := Z.of_N (Byte.to_N b).

Definition byte_of_Z (z : Z) : byte :=
  match Byte.of_N (Z.to_N (z mod 256)) with
  | Some b => b
  | None => x00
  end.

(** Little-endian words. *)
Fixpoint le_combine (bs : list byte) : Z :=
  match bs with
  | [] => 0
  | b :: bs' => Z.lor (byte_val b) (Z.shiftl (le_combine bs') 8)
  end.

Fixpoint le_split (n : nat) (w : Z) : list byte :=
  match n with
  | O => []
  | S n' => byte_of_Z w :: le_split n' (Z.shiftr w 8)
  end.

(** The message followed by the bit 1, zeros up to 56 modulo 64, and the
    length in bits as a 64-bit little-endian number. *)
Definition pad (msg : list byte) : list byte :=
  let n := Z.of_nat (length msg) in
  msg ++ x80 :: replicate (Z.to_nat ((55 - n) mod 64)) x00
      ++ le_split 8 ((8 * n) mod 2 ^ 64).

Definition word_at (block : list byte) (g : nat) : Z :=
  le_combine (take 4 (drop (4 * g) block)).

Definition round (block : list byte) (st : Z * Z * Z * Z) (i : nat)
  : Z * Z * Z * Z :=
  let '(A, B, C, D) := st in
  let '(F, g) :=
    if Nat.ltb i 16 then (Z.lor (Z.land B C) (Z.land (not32 B) D), i)
    else if Nat.ltb i 32 then
      (Z.lor (Z.land D B) (Z.land (not32 D) C), (5 * i + 1) mod 16)%nat
    else if Nat.ltb i 48 then (Z.lxor (Z.lxor B C) D, (3 * i + 5) mod 16)%nat
    else (Z.lxor C (Z.lor B (not32 D)), (7 * i) mod 16)%nat in
  let F' := wrap32 (F + A + nth i K_table 0 + word_at block g) in
  (D, wrap32 (B + rotl32 F' (nth i s_table 0)), B, C).

Definition compress (st : Z * Z * Z * Z) (block : list byte)
  : Z * Z * Z * Z :=
  let '(a0, b0, c0, d0) := st in
  let '(A, B, C, D) := foldl (round block) st (seq 0 64) in
  (wrap32 (a0 + A), wrap32 (b0 + B), wrap32 (c0 + C), wrap32 (d0 + D)).

Fixpoint blocks (n : nat) (l : list byte) : list (list byte) :=
  match n with
  | O => []
  | S n' => take 64 l :: blocks n' (drop 64 l)
  end.

Definition init : Z * Z * Z * Z :=
  (0x67452301, 0xefcdab89, 0x98badcfe, 0x10325476).

(** [hashlib.md5(msg).digest()] *)
Definition digest (msg : list byte) : list byte :=
  let p := pad msg in
  let '(a, b, c, d) := foldl compress init (blocks (length p / 64) p) in
  le_split 4 a ++ le_split 4 b ++ le_split 4 c ++ le_split 4 d.

Definition hex_digit (n : N) : ascii :=
  nth (N.to_nat n)
    ["0"; "1"; "2"; "3"; "4"; "5"; "6"; "7";
     "8"; "9"; "a"; "b"; "c"; "d"; "e"; "f"]%char "0"%char.

Fixpoint hex (bs : list byte) : string :=
  match bs with
  | [] => EmptyString
  | b :: bs' =>
      let n := Byte.to_N b in
      String (hex_digit (n / 16)) (String (hex_digit (n mod 16)) (hex bs'))
  end.

(** [hashlib.md5(msg).hexdigest()] *)
Definition hexdigest (msg : list byte) : string := hex (digest msg).

Definition is_hex_char (c : ascii) : bool :=
  let n := N_of_ascii c in
  ((48 <=? n) && (n <=? 57) || (97 <=? n) && (n <=? 102))%N.

(** The shape of a hexdigest: 32 lowercase hexadecimal characters. *)
Definition is_hexdigest (s : string) : bool :=
  Str.all is_hex_char s && Nat.eqb (String.length s) 32.

End MD5.

(** ** Number formatting *)

Module Fmt.

(** [str(n)] for an [int] *)
Definition str_int (z : Z) : string := NilZero.string_of_int (Z.to_int z).

(** [float(n)] for an [int]; exact for [|n| < 2^53]. *)
Definition float_of_int (z : Z) : float :=
  if z <? 0 then PrimFloat.opp (PrimFloat.of_uint63 (Uint63.of_Z (- z)))
  else PrimFloat.of_uint63 (Uint63.of_Z z).

(** [a / b] on two [int]s with [b] not zero, as the binary64 quotient of the
    two converted operands (Python's result for operands below [2^53]). *)
Definition truediv_int (a b : Z) : float :=
  PrimFloat.div (float_of_int a) (float_of_int b).

(** [x * n] for a [float] and an [int] *)
Definition mul_int (x : float) (n : Z) : float :=
  PrimFloat.mul x (float_of_int n).

(** The integer nearest to [m * 2^e], ties to even. *)
Definition round_half_even (m e : Z) : Z :=
  if 0 <=? e then m * 2 ^ e
  else
    let d := 2 ^ (- e) in
    let q := m / d in
    let r := m mod d in
    if 2 * r <? d then q
    else if d <? 2 * r then q + 1
    else if Z.even q then q else q + 1.

(** [format(x, ".1f")] for a [float]: the decimal with one fractional
    digit nearest to the exact value of [x], ties to even. *)
Definition fixed1 (x : float) : string :=
  match Prim2SF x with
  | S754_zero s => if s then "-0.0" else "0.0"
  | S754_infinity s => if s then "-inf" else "inf"
  | S754_nan => "nan"
  | S754_finite s m e =>
      let n := round_half_even (10 * Z.pos m) e in
      (if s then "-" else "") +:+ str_int (n / 10) +:+ "." +:+ str_int (n mod 10)
  end.

(** A Python number: [int] or [float]. *)
Inductive number :=
| Int (z : Z)
| Float (x : float).

(** [f"{v:.1f}"] *)
Definition format_1f (v : number) : string :=
  match v with
  | Int z => fixed1 (float_of_int z)
  | Float x => fixed1 x
  end.

End Fmt.

(** ** Python values and exceptions *)

#[warnings="-register-all"]
Inductive json :=
| JNull
| JBool (b : bool)
| JInt (z : Z)
| JFloat (x : float)
| JStr (s : string)
| JList (l : list json)
| JDict (m : gmap string json).

Inductive exn :=
| OSError | ValueError | KeyError | TypeError | AttributeError | OverflowError
| UnicodeEncodeError.

Inductive outcome (A : Type) :=
| Return (a : A)
| Raise (e : exn).
Arguments Return {A} a.
Arguments Raise {A} e.

#[global] Instance exn_eq_dec : EqDecision exn.
Proof. solve_decision. Defined.
#[global] Instance outcome_eq_dec {A} `{EqDecision A} : EqDecision (outcome A).
Proof. solve_decision. Defined.

#[global] Instance outcome_ret : MRet outcome := @Return.
#[global] Instance outcome_bind : MBind outcome := fun A B k o =>
  match o with
  | Return a => k a
  | Raise e => Raise e
  end.
#[global] Instance outcome_fmap : FMap outcome := fun A B f o =>
  match o with
  | Return a => Return (f a)
  | Raise e => Raise e
  end.

Module Py.

(** [isinstance(v, dict)] *)
Definition is_dict (v : json) : bool :=
  match v with JDict _ => true | _ => false end.

(** [len(v)] *)
Definition len (v : json) : outcome Z :=
  match v with
  | JStr s => Return (Z.of_nat (Str.code_points s))
  | JList l => Return (Z.of_nat (length l))
  | JDict m => Return (Z.of_nat (size m))
  | _ => Raise TypeError
  end.

(** [k in v] for a string [k] *)
Definition contains (v : json) (k : string) : outcome bool :=
  match v with
  | JDict m => Return (bool_decide (is_Some (m !! k)))
  | JList l =>
      Return (existsb (fun x => match x with
                                | JStr s => String.eqb s k
                                | _ => false
                                end) l)
  | JStr s => Return (Str.contains s k)
  | _ => Raise TypeError
  end.

(** [v[k]] for a string [k] *)
Definition getitem (v : json) (k : string) : outcome json :=
  match v with
  | JDict m => match m !! k with
               | Some x => Return x
               | None => Raise KeyError
               end
  | _ => Raise TypeError
  end.

(** [v[k] = x] for a string [k] *)
Definition setitem (v : json) (k : string) (x : json) : outcome json :=
  match v with
  | JDict m => Return (JDict (<[k := x]> m))
  | _ => Raise TypeError
  end.

(** [v.items()] and [v.keys()] *)
Definition items (v : json) : outcome (gmap string json) :=
  match v with
  | JDict m => Return m
  | _ => Raise AttributeError
  end.

(** [{k: v for k, v in l if p(k, v)}] over the items [l], where the
    condition can raise: the first exception ends the comprehension. *)
Fixpoint keep_where (p : string -> json -> outcome bool)
    (l : list (string * json)) : outcome (list (string * json)) :=
  match l with
  | [] => Return []
  | (k, v) :: l' =>
      b ← p k v;
      rest ← keep_where p l';
      Return (if b : bool then (k, v) :: rest else rest)
  end.

(** The dictionary comprehension over a [dict].  The items are visited in
    the order of [map_to_list]; the order decides only which exception is
    raised when several items raise. *)
Definition dict_where (p : string -> json -> outcome bool)
    (m : gmap string json) : outcome (gmap string json) :=
  l ← keep_where p (map_to_list m);
  Return (list_to_map l).

(** [for x in l: r.append(f(x))] where [f] can raise. *)
Fixpoint for_each {A B} (f : A -> outcome B) (l : list A) : outcome (list B) :=
  match l with
  | [] => Return []
  | x :: l' =>
      y ← f x;
      ys ← for_each f l';
      Return (y :: ys)
  end.

End Py.

(** ** The [datetime] library, as the class uses it *)

Class DateTime := {
  datetime : Type;
  (** [d.isoformat()] *)
  isoformat : datetime -> string;
  (** [datetime.fromisoformat(s)] for a string: [None] is [ValueError] *)
  fromisoformat : string -> option datetime;
  (** [d - timedelta(days=n)]: [None] is [OverflowError] *)
  minus_days : datetime -> Z -> option datetime;
  (** [a > b]: [None] is [TypeError] (a naive and an aware datetime) *)
  later : datetime -> datetime -> option bool;
}.

Definition or_raise {A} (e : exn) (o : option A) : outcome A :=
  match o with
  | Some a => Return a
  | None => Raise e
  end.

(** ** The class [ImageAnalysisCache] *)

(** [self.stats] *)
Record Stats := {
  hits : Z;
  misses : Z;
  total_queries : Z;
}.

(** The object: [self.cache] and [self.stats]. *)
Record ImageAnalysisCache := {
  cache : json;
  stats : Stats;
}.

(** What reading the cache file gives: [open] fails, [json.load] fails, or
    [json.load] returns a value. *)
Inductive stored :=
| Unreadable
| Corrupt
| Document (data : json).

(** The object together with its cache file ([None]: the file does not
    exist). *)
Record world := {
  self : ImageAnalysisCache;
  disk : option stored;
}.

(** The dictionary that [get_stats] returns. *)
Record report := {
  total_cached_entries : Z;
  cache_hits : Z;
  cache_misses : Z;
  hit_rate : string;
  cache_file_size : string;
}.

(** The methods: they read and update the object and the file, and return a
    value or raise. *)
Definition M (A : Type) : Type := world -> outcome A * world.

#[global] Instance M_ret : MRet M := fun A a w => (Return a, w).
#[global] Instance M_bind : MBind M := fun A B k m w =>
  match m w with
  | (Return a, w') => k a w'
  | (Raise e, w') => (Raise e, w')
  end.

Definition lift {A} (o : outcome A) : M A := fun w => (o, w).
Definition get_cache : M json := fun w => (Return (cache (self w)), w).
Definition get_stats_dict : M Stats := fun w => (Return (stats (self w)), w).
Definition put_cache (c : json) : M unit := fun w =>
  (Return tt, {| self := {| cache := c; stats := stats (self w) |};
                 disk := disk w |}).
Definition put_stats (s : Stats) : M unit := fun w =>
  (Return tt, {| self := {| cache := cache (self w); stats := s |};
                 disk := disk w |}).

(** [open(self.cache_file, 'r')] followed by [json.load(f)] *)
Definition json_load (f : stored) : outcome json :=
  match f with
  | Unreadable => Raise OSError
  | Corrupt => Raise ValueError
  | Document data => Return data
  end.

Definition empty_dict : json := JDict ∅.

Definition _load_cache (d : option stored) : json :=
  match d with
  | Some f =>
      match
        data ← json_load f;
        in_data ← (if Py.is_dict data then Py.contains data "cache"
                   else Return false);
        if in_data : bool then Py.getitem data "cache" else Return data
      with
      | Return v => v
      | Raise _ => empty_dict
      end
  | None => empty_dict
  end.

Definition __init__ (d : option stored) : world :=
  {| self := {| cache := _load_cache d;
                stats := {| hits := 0; misses := 0; total_queries := 0 |} |};
     disk := d |}.

Definition _get_query_hash (expanded_query : string) : string :=
  MD5.hexdigest (Str.encode expanded_query).

Section Methods.

Context `{DT : DateTime}.

(** What a call can observe outside the object and its cache file. *)
Record env := {
  (** [open(path, 'rb')] and [f.read()]: the bytes of the image file *)
  files : string -> outcome (list byte);
  (** [datetime.now()] *)
  now : datetime;
  (** whether [open(self.cache_file, 'w')] succeeds *)
  writable : bool;
  (** [self.cache_file.stat().st_size] when the file exists *)
  st_size : Z;
}.

Definition stats_json (s : Stats) : json :=
  JDict (<["hits" := JInt (hits s)]>
         (<["misses" := JInt (misses s)]>
          (<["total_queries" := JInt (total_queries s)]> ∅))).

(** The value [data] that [_save_cache] builds. *)
Definition save_data (e : env) (o : ImageAnalysisCache) : outcome json :=
  let last_updated := isoformat (now e) in
  total_entries ← Py.len (cache o);
  Return (JDict (<["cache" := cache o]>
                 (<["metadata" :=
                      JDict (<["last_updated" := JStr last_updated]>
                             (<["total_entries" := JInt total_entries]>
                              (<["stats" := stats_json (stats o)]> ∅)))]> ∅))).

Definition _save_cache (e : env) : M unit := fun w =>
  match
    data ← save_data e (self w);
    if writable e then Return data else Raise OSError
  with
  | Return data => (Return tt, {| self := self w; disk := Some (Document data) |})
  | Raise _ => (Return tt, w)
  end.

Definition _get_image_hash (e : env) (image_path : string) : string :=
  match
    f ← files e image_path;
    let content := take (Z.to_nat (1024 * 1024)) f in
    Return (MD5.hexdigest content)
  with
  | Return h => h
  | Raise _ => MD5.hexdigest (Str.encode image_path)
  end.

Definition _get_cache_key (e : env) (image_path expanded_query : string)
  : string :=
  let img_hash := _get_image_hash e image_path in
  let query_hash := _get_query_hash expanded_query in
  img_hash +:+ ":" +:+ query_hash.

Definition get (e : env) (image_path expanded_query : string)
  : M (option (json * json)) :=
  let cache_key := _get_cache_key e image_path expanded_query in
  c ← get_cache;
  found ← lift (Py.contains c cache_key);
  s ← get_stats_dict;
  if found : bool then
    put_stats {| hits := hits s + 1; misses := misses s;
                 total_queries := total_queries s |};;
    entry ← lift (Py.getitem c cache_key);
    is_match ← lift (Py.getitem entry "is_match");
    explanation ← lift (Py.getitem entry "explanation");
    mret (Some (is_match, explanation))
  else
    put_stats {| hits := hits s; misses := misses s + 1;
                 total_queries := total_queries s |};;
    mret None.

(** The entry that [set] stores. *)
Definition new_entry (e : env) (image_path : string) (is_match : bool)
    (explanation : string) : json :=
  JDict (<["is_match" := JBool is_match]>
         (<["explanation" := JStr explanation]>
          (<["image_path" := JStr image_path]>
           (<["timestamp" := JStr (isoformat (now e))]> ∅)))).

Definition set (e : env) (image_path expanded_query : string)
    (is_match : bool) (explanation : string) : M unit :=
  let cache_key := _get_cache_key e image_path expanded_query in
  c ← get_cache;
  c' ← lift (Py.setitem c cache_key
               (new_entry e image_path is_match explanation));
  put_cache c'.

Definition save (e : env) : M unit := _save_cache e.

Definition _get_cache_file_size (e : env) : M string := fun w =>
  match disk w with
  | None => (Return "0 KB", w)
  | Some _ =>
      let size_bytes := st_size e in
      if size_bytes <? 1024 then
        (Return (Fmt.str_int size_bytes +:+ " B"), w)
      else if size_bytes <? 1024 * 1024 then
        (Return (Fmt.fixed1 (Fmt.truediv_int size_bytes 1024) +:+ " KB"), w)
      else
        (Return (Fmt.fixed1 (Fmt.truediv_int size_bytes (1024 * 1024))
                 +:+ " MB"), w)
  end.

(** The number [hit_rate] of [get_stats]. *)
Definition hit_rate_of (s : Stats) : Fmt.number :=
  let total := hits s + misses s in
  if 0 <? total
  then Fmt.Float (Fmt.mul_int (Fmt.truediv_int (hits s) total) 100)
  else Fmt.Int 0.

Definition get_stats (e : env) : M report :=
  s ← get_stats_dict;
  c ← get_cache;
  n ← lift (Py.len c);
  size ← _get_cache_file_size e;
  mret {| total_cached_entries := n;
          cache_hits := hits s;
          cache_misses := misses s;
          hit_rate := Fmt.format_1f (hit_rate_of s) +:+ "%";
          cache_file_size := size |}.

(** The condition of the comprehension in [clear_old_entries]:
    [datetime.fromisoformat(value["timestamp"]) > cutoff_date]. *)
Definition is_recent (cutoff_date : datetime) (key : string) (value : json)
  : outcome bool :=
  ts ← Py.getitem value "timestamp";
  d ← match ts with
      | JStr s => or_raise ValueError (fromisoformat s)
      | _ => Raise TypeError
      end;
  or_raise TypeError (later d cutoff_date).

Definition clear_old_entries (e : env) (days : Z) : M Z :=
  cutoff_date ← lift (or_raise OverflowError (minus_days (now e) days));
  c ← get_cache;
  initial_count ← lift (Py.len c);
  m ← lift (Py.items c);
  kept ← lift (Py.dict_where (is_recent cutoff_date) m);
  put_cache (JDict kept);;
  let removed_count := initial_count - Z.of_nat (size kept) in
  _save_cache e;;
  mret removed_count.

Definition clear_by_query (e : env) (expanded_query : string) : M Z :=
  let query_hash := _get_query_hash expanded_query in
  c ← get_cache;
  initial_count ← lift (Py.len c);
  m ← lift (Py.items c);
  let kept :=
    filter (fun kv => Str.endswith kv.1 (":" +:+ query_hash) = false) m in
  put_cache (JDict kept);;
  let removed_count := initial_count - Z.of_nat (size kept) in
  _save_cache e;;
  mret removed_count.

Definition clear_all (e : env) : M Z :=
  c ← get_cache;
  count ← lift (Py.len c);
  put_cache empty_dict;;
  _save_cache e;;
  mret count.

(** [_, query_hash = key.split(":", 1)] *)
Definition query_hash_of (key : string) : outcome string :=
  match Str.split1 ":" key with
  | [_; query_hash] => Return query_hash
  | _ => Raise ValueError
  end.

(** The result is the content of the set [query_hashes]; the order in
    which [list(query_hashes)] lists it is not specified by Python. *)
Definition get_queries_analyzed : M (gset string) :=
  c ← get_cache;
  m ← lift (Py.items c);
  hs ← lift (Py.for_each query_hash_of (elements (dom m)));
  mret (list_to_set hs).

End Methods.

(** ** Sequences of calls *)

Inductive call :=
| Get (image_path expanded_query : string)
| Set_ (image_path expanded_query : string) (is_match : bool)
       (explanation : string)
| Save
| GetStats
| ClearOldEntries (days : Z)
| ClearByQuery (expanded_query : string)
| ClearAll
| GetQueriesAnalyzed.

Section Calls.

Context `{DT : DateTime}.

(** The object and the file after one call, whether it returned or
    raised. *)
Definition exec (e : env) (c : call) (w : world) : world :=
  match c with
  | Get p q => (get e p q w).2
  | Set_ p q b x => (set e p q b x w).2
  | Save => (save e w).2
  | GetStats => (get_stats e w).2
  | ClearOldEntries days => (clear_old_entries e days w).2
  | ClearByQuery q => (clear_by_query e q w).2
  | ClearAll => (clear_all e w).2
  | GetQueriesAnalyzed => (get_queries_analyzed w).2
  end.

(** A run: each call is made in the environment of its moment. *)
Definition run (calls : list (env * call)) (w : world) : world :=
  foldl (fun w ec => exec ec.1 ec.2 w) w calls.

End Calls.

(** ** Shapes of keys and entries *)

(** A composite key: two hexdigests joined by one colon. *)
Definition is_cache_key (key : string) : bool :=
  match Str.split1 ":" key with
  | [img_hash; query_hash] =>
      MD5.is_hexdigest img_hash && MD5.is_hexdigest query_hash
  | _ => false
  end.

(** A mapping whose keys are all composite keys. *)
Definition cache_mapping (m : gmap string json) : Prop :=
  map_Forall (fun key _ => is_cache_key key = true) m.

(** An entry from which [get] can read a verdict. *)
Definition is_entry (v : json) : bool :=
  match v with
  | JDict fields =>
      bool_decide (is_Some (fields !! "is_match"))
      && bool_decide (is_Some (fields !! "explanation"))
  | _ => false
  end.

(** The cache is a mapping from composite keys to entries. *)
Definition well_formed (w : world) : Prop :=
  exists m, cache (self w) = JDict m
            /\ cache_mapping m
            /\ map_Forall (fun _ v => is_entry v = true) m.

(** The cache is a mapping whose items all satisfy [P]. *)
Definition cache_Forall (P : string -> json -> Prop) (w : world) : Prop :=
  exists m, cache (self w) = JDict m /\ map_Forall P m.


(** The cache is a mapping whose keys are composite keys. *)
Definition keyed (w : world) : Prop :=
  cache_Forall (fun key _ => is_cache_key key = true) w.

(** The world after a hit has been counted, with another cache, with other
    statistics. *)
Definition count_hit (w : world) : world :=
  {| self := {| cache := cache (self w);
                stats := {| hits := hits (stats (self w)) + 1;
                            misses := misses (stats (self w));
                            total_queries := total_queries (stats (self w)) |} |};
     disk := disk w |}.

Definition with_cache (c : json) (w : world) : world :=
  {| self := {| cache := c; stats := stats (self w) |}; disk := disk w |}.

Definition with_stats (s : Stats) (w : world) : world :=
  {| self := {| cache := cache (self w); stats := s |}; disk := disk w |}.

(** The field [total_queries] of the metadata block of a saved document. *)
Definition saved_total_queries (data : json) : outcome json :=
  metadata ← Py.getitem data "metadata";
  s ← Py.getitem metadata "stats";
  Py.getitem s "total_queries".

(** ** A reference implementation of the [datetime] interface

    Naive datetimes of the proleptic Gregorian calendar, years 1 to 9999,
    with the ordinal arithmetic of CPython's [datetime] module.  The parser
    accepts the format that [isoformat()] emits,
    [YYYY-MM-DDTHH:MM:SS] with an optional [.ffffff]; the other ISO 8601
    forms that [fromisoformat] accepts in some Python versions are not
    parsed. *)

Module Iso.

Record naive := {
  year : Z; month : Z; day : Z;
  hour : Z; minute : Z; second : Z; microsecond : Z;
}.

Definition is_leap (y : Z) : bool :=
  (y mod 4 =? 0) && (negb (y mod 100 =? 0) || (y mod 400 =? 0)).

Definition days_in_month (y m : Z) : Z :=
  if m =? 2 then (if is_leap y then 29 else 28)
  else if (m =? 4) || (m =? 6) || (m =? 9) || (m =? 11) then 30
  else 31.

Definition days_before_year (y : Z) : Z :=
  let y1 := y - 1 in
  y1 * 365 + y1 / 4 - y1 / 100 + y1 / 400.

Definition days_before_month (y m : Z) : Z :=
  nth (Z.to_nat m) [0; 0; 31; 59; 90; 120; 151; 181; 212; 243; 273; 304; 334] 0
  + (if (2 <? m) && is_leap y then 1 else 0).

Definition ymd2ord (y m d : Z) : Z :=
  days_before_year y + days_before_month y m + d.

Definition ord2ymd (ordinal : Z) : Z * Z * Z :=
  let n := ordinal - 1 in
  let n400 := n / 146097 in
  let n := n mod 146097 in
  let n100 := n / 36524 in
  let n := n mod 36524 in
  let n4 := n / 1461 in
  let n := n mod 1461 in
  let n1 := n / 365 in
  let n := n mod 365 in
  let y := n400 * 400 + 1 + n100 * 100 + n4 * 4 + n1 in
  if (n1 =? 4) || (n100 =? 4) then (y - 1, 12, 31)
  else
    let m := Z.shiftr (n + 50) 5 in
    let preceding := days_before_month y m in
    if n <? preceding
    then (y, m - 1, n - (preceding - days_in_month y (m - 1)) + 1)
    else (y, m, n - preceding + 1).

Definition max_ordinal : Z := 3652059.

Definition sub_days (d : naive) (n : Z) : option naive :=
  if 999999999 <? Z.abs n then None
  else
    let o := ymd2ord (year d) (month d) (day d) - n in
    if (o <? 1) || (max_ordinal <? o) then None
    else
      let '(y, m, dd) := ord2ymd o in
      Some {| year := y; month := m; day := dd;
              hour := hour d; minute := minute d; second := second d;
              microsecond := microsecond d |}.

Definition key (d : naive) : list Z :=
  [year d; month d; day d; hour d; minute d; second d; microsecond d].

Fixpoint lex_gt (a b : list Z) : bool :=
  match a, b with
  | x :: a', y :: b' => if y <? x then true else if x <? y then false else lex_gt a' b'
  | _, _ => false
  end.

Definition after (a b : naive) : option bool := Some (lex_gt (key a) (key b)).

Definition digit_char (z : Z) : ascii := ascii_of_N (Z.to_N (48 + z mod 10)).

(** The last [w] decimal digits of [z]. *)
Fixpoint digits (w : nat) (z : Z) : string :=
  match w with
  | O => EmptyString
  | S w' => digits w' (z / 10) +:+ String (digit_char z) EmptyString
  end.

Definition to_iso (d : naive) : string :=
  digits 4 (year d) +:+ "-" +:+ digits 2 (month d) +:+ "-" +:+ digits 2 (day d)
  +:+ "T" +:+ digits 2 (hour d) +:+ ":" +:+ digits 2 (minute d)
  +:+ ":" +:+ digits 2 (second d)
  +:+ (if microsecond d =? 0 then "" else "." +:+ digits 6 (microsecond d)).

Definition digit_val (c : ascii) : option Z :=
  let n := N_of_ascii c in
  if ((48 <=? n) && (n <=? 57))%N then Some (Z.of_N n - 48) else None.

Fixpoint read_digits (w : nat) (acc : Z) (s : string) : option (Z * string) :=
  match w with
  | O => Some (acc, s)
  | S w' =>
      match s with
      | String c s' => d ← digit_val c; read_digits w' (10 * acc + d) s'
      | EmptyString => None
      end
  end.

Definition expect (c : ascii) (s : string) : option string :=
  match s with
  | String d s' => if Ascii.eqb c d then Some s' else None
  | EmptyString => None
  end.

Definition of_iso (s : string) : option naive :=
  '(y, s) ← read_digits 4 0 s; s ← expect "-" s;
  '(m, s) ← read_digits 2 0 s; s ← expect "-" s;
  '(d, s) ← read_digits 2 0 s; s ← expect "T" s;
  '(hh, s) ← read_digits 2 0 s; s ← expect ":" s;
  '(mm, s) ← read_digits 2 0 s; s ← expect ":" s;
  '(ss, s) ← read_digits 2 0 s;
  us ← match s with
       | EmptyString => Some 0
       | String c s' =>
           if Ascii.eqb c "." then
             '(us, rest) ← read_digits 6 0 s';
             if String.eqb rest "" then Some us else None
           else None
       end;
  if (1 <=? y) && (1 <=? m) && (m <=? 12) && (1 <=? d)
     && (d <=? days_in_month y m) && (hh <? 24) && (mm <? 60) && (ss <? 60)
  then Some {| year := y; month := m; day := d;
               hour := hh; minute := mm; second := ss; microsecond := us |}
  else None.

#[global] Instance library : DateTime := {|
  datetime := naive;
  isoformat := to_iso;
  fromisoformat := of_iso;
  minus_days := sub_days;
  later := after;
|}.

End Iso.

(** ** A sample environment and sample files, for the examples *)

Module Sample.

Definition clock : Iso.naive :=
  {| Iso.year := 2026; Iso.month := 11; Iso.day := 3;
     Iso.hour := 14; Iso.minute := 51; Iso.second := 7;
     Iso.microsecond := 1234 |}.

Definition photo : list byte := Str.encode "ocean, seen from the pier".

(** Two files that agree on their first MiB and differ after it. *)
Definition long_a : list byte := replicate (Z.to_nat (1024 * 1024)) x00 ++ [x01].
Definition long_b : list byte :=
  replicate (Z.to_nat (1024 * 1024)) x00 ++ [x02; x03].

Definition fs (path : string) : outcome (list byte) :=
  if String.eqb path "photo1.jpg" then Return photo
  else if String.eqb path "backup/IMG_0001.jpg" then Return photo
  else if String.eqb path "a.raw" then Return long_a
  else if String.eqb path "b.raw" then Return long_b
  else Raise OSError.

Definition e : env :=
  {| files := fs; now := clock; writable := true; st_size := 2048 |}.

(** The object constructed when there is no cache file. *)
Definition fresh : world := __init__ None.

(** A legacy cache file with one entry whose timestamp is not a date. *)
Definition bad_entry : json :=
  JDict (<["is_match" := JBool true]>
         (<["explanation" := JStr "water visible"]>
          (<["image_path" := JStr "photo1.jpg"]>
           (<["timestamp" := JStr "yesterday"]> ∅)))).

Definition legacy_file : stored :=
  Document (JDict (<[_get_cache_key e "photo1.jpg" "ocean scene" := bad_entry]> ∅)).

(** A cache file in the current format with an old and a recent entry. *)
Definition entry_at (timestamp : string) : json :=
  JDict (<["is_match" := JBool false]>
         (<["explanation" := JStr "no water"]>
          (<["image_path" := JStr "photo1.jpg"]>
           (<["timestamp" := JStr timestamp]> ∅)))).

Definition old_key : string := _get_cache_key e "photo1.jpg" "mountain scene".
Definition recent_key : string := _get_cache_key e "photo1.jpg" "ocean scene".

Definition aged_file : stored :=
  Document
    (JDict (<["cache" :=
                JDict (<[old_key := entry_at "2026-09-01T08:00:00"]>
                       (<[recent_key := entry_at "2026-10-20T08:00:00.500000"]> ∅))]>
            (<["metadata" := JNull]> ∅))).

End Sample.

(** * Properties *)

(** ** Strings *)

Lemma app_cons c (a b : string) : String c a +:+ b = String c (a +:+ b).
Proof. reflexivity. Qed.

Lemma app_nil (b : string) : "" +:+ b = b.
Proof. reflexivity. Qed.

Lemma endswith_eq s suffix :
  Str.endswith s suffix =
  if String.eqb s suffix then true
  else match s with
       | EmptyString => false
       | String _ s' => Str.endswith s' suffix
       end.
Proof. by destruct s. Qed.

Lemma endswith_refl s : Str.endswith s s = true.
Proof. by rewrite endswith_eq, String.eqb_refl. Qed.

Lemma endswith_app p suffix : Str.endswith (p +:+ suffix) suffix = true.
Proof.
  induction p as [|c p IH].
  - apply endswith_refl.
  - change (String c p +:+ suffix) with (String c (p +:+ suffix)).
    rewrite endswith_eq, IH. by destruct (String.eqb _ _).
Qed.

Lemma endswith_inv s suffix :
  Str.endswith s suffix = true -> exists p, s = p +:+ suffix.
Proof.
  induction s as [|c s IH]; rewrite endswith_eq.
  - destruct (String.eqb_spec "" suffix) as [<-|]; [|done].
    intros _. by exists "".
  - destruct (String.eqb_spec (String c s) suffix) as [<-|_].
    + intros _. by exists "".
    + intros [p ->]%IH. by exists (String c p).
Qed.

Lemma length_app_string (a b : string) :
  String.length (a +:+ b) = (String.length a + String.length b)%nat.
Proof.
  induction a as [|c a IH]; [done|]. rewrite app_cons. simpl. by rewrite IH.
Qed.

(** Two decompositions with tails of the same length agree. *)
Lemma app_inj_tail_length (a a' b b' : string) :
  a +:+ b = a' +:+ b' -> String.length b = String.length b' ->
  a = a' /\ b = b'.
Proof.
  revert a'. induction a as [|c a IH]; intros [|c' a'] Heq Hlen;
    rewrite ?app_cons, ?app_nil in Heq.
  - done.
  - apply (f_equal String.length) in Heq. simpl in Heq.
    rewrite length_app_string in Heq. lia.
  - apply (f_equal String.length) in Heq. simpl in Heq.
    rewrite length_app_string in Heq. lia.
  - injection Heq as -> Heq. destruct (IH _ Heq Hlen) as [-> ->]. done.
Qed.

(** On a string that ends in a part as long as the suffix, [endswith]
    compares that part with the suffix. *)
Lemma endswith_same_length p b suffix :
  String.length b = String.length suffix ->
  Str.endswith (p +:+ b) suffix = bool_decide (b = suffix).
Proof.
  intros Hlen. case_bool_decide as Hb.
  - subst. apply endswith_app.
  - destruct (Str.endswith (p +:+ b) suffix) eqn:E; [|done].
    apply endswith_inv in E as [p' E].
    by destruct (app_inj_tail_length _ _ _ _ E Hlen).
Qed.

Lemma cut_app sep a b :
  Str.count sep a = 0%nat ->
  Str.cut sep (a +:+ String sep b) = Some (a, b).
Proof.
  induction a as [|c a IH]; rewrite ?app_cons, ?app_nil; simpl.
  - intros _. by rewrite Ascii.eqb_refl.
  - destruct (Ascii.eqb c sep); [done|]. simpl. intros H. by rewrite IH.
Qed.

Lemma cut_inv sep s a b :
  Str.cut sep s = Some (a, b) ->
  s = a +:+ String sep b /\ Str.count sep a = 0%nat.
Proof.
  revert a. induction s as [|c s IH]; simpl; [done|]. intros a.
  destruct (Ascii.eqb_spec c sep) as [->|Hne].
  - intros [= <- <-]. done.
  - destruct (Str.cut sep s) as [[a' b']|]; [|done].
    intros [= <- <-]. destruct (IH _ eq_refl) as [-> Hc]. split; [done|].
    simpl. destruct (Ascii.eqb_spec c sep); [done|]. done.
Qed.

Lemma count_app c (a b : string) :
  Str.count c (a +:+ b) = (Str.count c a + Str.count c b)%nat.
Proof.
  induction a as [|d a IH]; [done|]. rewrite app_cons. simpl. rewrite IH. lia.
Qed.

(** ** Digests *)

Lemma length_le_split n w : length (MD5.le_split n w) = n.
Proof. revert w. induction n; simpl; auto. Qed.

Lemma length_digest msg : length (MD5.digest msg) = 16%nat.
Proof.
  unfold MD5.digest.
  destruct (foldl _ _ _) as [[[a b] c] d].
  rewrite !length_app, !length_le_split. done.
Qed.

Lemma length_hex bs : String.length (MD5.hex bs) = (2 * length bs)%nat.
Proof. induction bs; simpl; [done|]. rewrite IHbs. lia. Qed.

Lemma hex_digit_is_hex n : (n < 16)%N -> MD5.is_hex_char (MD5.hex_digit n) = true.
Proof.
  intros H.
  assert (Hn : exists k, (k < 16)%nat /\ n = N.of_nat k).
  { exists (N.to_nat n). split; lia. }
  destruct Hn as (k & Hk & ->).
  do 16 (destruct k as [|k]; [reflexivity|]). lia.
Qed.

Lemma all_hex bs : Str.all MD5.is_hex_char (MD5.hex bs) = true.
Proof.
  induction bs as [|b bs IH]; simpl; [done|].
  rewrite IH, !hex_digit_is_hex; [done| |].
  - apply N.mod_lt. done.
  - apply N.Div0.div_lt_upper_bound. pose proof (Byte.to_N_bounded b). lia.
Qed.

Lemma hexdigest_shape msg : MD5.is_hexdigest (MD5.hexdigest msg) = true.
Proof.
  unfold MD5.is_hexdigest, MD5.hexdigest.
  rewrite all_hex, length_hex, length_digest. done.
Qed.

Lemma is_hexdigest_length s : MD5.is_hexdigest s = true -> String.length s = 32%nat.
Proof.
  unfold MD5.is_hexdigest. intros [_ H]%andb_true_iff. by apply Nat.eqb_eq.
Qed.

Lemma hex_chars_no_colon s :
  Str.all MD5.is_hex_char s = true -> Str.count ":" s = 0%nat.
Proof.
  induction s as [|c s IH]; simpl; [done|].
  intros [Hc Hs]%andb_true_iff. rewrite (IH Hs).
  destruct (Ascii.eqb_spec c ":") as [->|]; [|done]. discriminate Hc.
Qed.

Lemma is_hexdigest_no_colon s :
  MD5.is_hexdigest s = true -> Str.count ":" s = 0%nat.
Proof.
  unfold MD5.is_hexdigest. intros [H _]%andb_true_iff.
  by apply hex_chars_no_colon.
Qed.

(** ** Keys *)

Section Properties.

Context `{DT : DateTime}.

(** Unfolds the operations of the monad [M]. *)
Ltac unfold_monad :=
  unfold mbind, M_bind, mret, M_ret, lift, get_cache, put_cache,
    get_stats_dict, put_stats.

Lemma image_hash_shape e p : MD5.is_hexdigest (_get_image_hash e p) = true.
Proof.
  unfold _get_image_hash. destruct (files e p); simpl; apply hexdigest_shape.
Qed.

Lemma query_hash_shape q : MD5.is_hexdigest (_get_query_hash q) = true.
Proof. apply hexdigest_shape. Qed.

Lemma split1_key ih qh :
  MD5.is_hexdigest ih = true ->
  Str.split1 ":" (ih +:+ ":" +:+ qh) = [ih; qh].
Proof.
  intros H. unfold Str.split1.
  change (":" +:+ qh) with (String ":" qh).
  by rewrite cut_app by by apply is_hexdigest_no_colon.
Qed.

Lemma is_cache_key_join ih qh :
  MD5.is_hexdigest ih = true -> MD5.is_hexdigest qh = true ->
  is_cache_key (ih +:+ ":" +:+ qh) = true.
Proof.
  intros Hi Hq. unfold is_cache_key. rewrite split1_key by done.
  by rewrite Hi, Hq.
Qed.

Lemma is_cache_key_inv key :
  is_cache_key key = true ->
  exists ih qh, key = ih +:+ ":" +:+ qh
                /\ MD5.is_hexdigest ih = true /\ MD5.is_hexdigest qh = true.
Proof.
  unfold is_cache_key, Str.split1.
  destruct (Str.cut ":" key) as [[a b]|] eqn:E; [|done].
  intros [Ha Hb]%andb_true_iff. apply cut_inv in E as [-> _]. eauto.
Qed.

Lemma cache_key_shape e p q : is_cache_key (_get_cache_key e p q) = true.
Proof.
  apply is_cache_key_join; [apply image_hash_shape | apply query_hash_shape].
Qed.

Lemma query_hash_of_join ih qh :
  MD5.is_hexdigest ih = true ->
  query_hash_of (ih +:+ ":" +:+ qh) = Return qh.
Proof. intros H. unfold query_hash_of. by rewrite split1_key. Qed.

(** The suffix test of [clear_by_query] on a composite key compares the
    query part with the hash. *)
Lemma endswith_query_hash ih qh h :
  MD5.is_hexdigest qh = true -> MD5.is_hexdigest h = true ->
  Str.endswith (ih +:+ ":" +:+ qh) (":" +:+ h) = bool_decide (qh = h).
Proof.
  intros Hq Hh.
  rewrite endswith_same_length.
  - apply bool_decide_ext. change (":" +:+ qh) with (String ":" qh).
    change (":" +:+ h) with (String ":" h). naive_solver.
  - rewrite !length_app_string. simpl.
    by rewrite (is_hexdigest_length _ Hq), (is_hexdigest_length _ Hh).
Qed.

(** A key whose query part is [qh], in the sense of
    [get_queries_analyzed], ends with the separator and [qh]. *)
Lemma query_hash_of_inv key qh :
  query_hash_of key = Return qh ->
  exists a, key = a +:+ ":" +:+ qh /\ Str.count ":" a = 0%nat.
Proof.
  unfold query_hash_of, Str.split1.
  destruct (Str.cut ":" key) as [[a b]|] eqn:E; [|done].
  intros [= <-]. apply cut_inv in E. eauto.
Qed.

(** ** [set] followed by [get] *)

Lemma set_spec e p q b x w m :
  cache (self w) = JDict m ->
  set e p q b x w =
    (Return tt,
     {| self := {| cache := JDict (<[_get_cache_key e p q := new_entry e p b x]> m);
                   stats := stats (self w) |};
        disk := disk w |}).
Proof.
  intros Hc. unfold set; unfold_monad.
  rewrite Hc. reflexivity.
Qed.

Lemma get_hit e p q w m fields a b :
  cache (self w) = JDict m ->
  m !! _get_cache_key e p q = Some (JDict fields) ->
  fields !! "is_match" = Some a ->
  fields !! "explanation" = Some b ->
  get e p q w = (Return (Some (a, b)), count_hit w).
Proof.
  intros Hc Hk Ha Hb.
  unfold get; unfold_monad.
  rewrite Hc. simpl.
  rewrite bool_decide_true by (rewrite Hk; eauto).
  rewrite Hk. simpl. by rewrite Ha, Hb.
Qed.

Lemma get_miss e p q w m :
  cache (self w) = JDict m ->
  m !! _get_cache_key e p q = None ->
  exists w1, get e p q w = (Return None, w1)
             /\ cache (self w1) = cache (self w) /\ disk w1 = disk w
             /\ misses (stats (self w1)) = misses (stats (self w)) + 1
             /\ hits (stats (self w1)) = hits (stats (self w)).
Proof.
  intros Hc Hk. eexists.
  unfold get; unfold_monad.
  rewrite Hc. simpl.
  rewrite bool_decide_false by (rewrite Hk; by intros [? ?]).
  simpl. by rewrite Hc.
Qed.

Lemma cache_key_same_hash e1 e2 p1 p2 q :
  _get_image_hash e1 p1 = _get_image_hash e2 p2 ->
  _get_cache_key e1 p1 q = _get_cache_key e2 p2 q.
Proof. unfold _get_cache_key. by intros ->. Qed.

Lemma set_then_get_same_hash e1 e2 p1 p2 q b x w :
  Py.is_dict (cache (self w)) = true ->
  _get_image_hash e1 p1 = _get_image_hash e2 p2 ->
  exists w1, set e1 p1 q b x w = (Return tt, w1)
             /\ get e2 p2 q w1 = (Return (Some (JBool b, JStr x)), count_hit w1).
Proof.
  intros Hd Hh. destruct (cache (self w)) as [| | | | | |m] eqn:Hc; try done.
  eexists. split; [by apply set_spec|].
  eapply (get_hit _ _ _ _ _ _ (JBool b) (JStr x)); [reflexivity | | |].
  - rewrite <- (cache_key_same_hash e1 e2 p1 p2 q Hh). apply lookup_insert_eq.
  - reflexivity.
  - reflexivity.
Qed.

(** C1. After [set(image_path, query, is_match, explanation)] on a cache
    that is a mapping, [get(image_path, query)] made while the image file
    has the same bytes, or is still unreadable, counts a hit and returns
    exactly the stored pair [(is_match, explanation)]. *)
Theorem set_then_get e e' p q b x w :
  Py.is_dict (cache (self w)) = true ->
  files e' p = files e p ->
  exists w1, set e p q b x w = (Return tt, w1)
             /\ get e' p q w1 = (Return (Some (JBool b, JStr x)), count_hit w1).
Proof.
  intros Hd Hf. apply set_then_get_same_hash; [done|].
  unfold _get_image_hash. by rewrite Hf.
Qed.

(** ** Fingerprints of images *)

Lemma image_hash_readable e p content :
  files e p = Return content ->
  _get_image_hash e p
  = MD5.hexdigest (take (Z.to_nat (1024 * 1024)) content).
Proof. unfold _get_image_hash. by intros ->. Qed.

Lemma image_hash_unreadable e p ex :
  files e p = Raise ex ->
  _get_image_hash e p = MD5.hexdigest (Str.encode p).
Proof. unfold _get_image_hash. by intros ->. Qed.

(** C5. Two readable image files whose first MiB is the same have the
    same fingerprint, whatever their paths and the bytes after the first
    MiB: the fingerprint is the digest of that prefix.  So both files have
    the same key for every query, [get] behaves the same for both, and a
    verdict stored for one is returned for the other. *)
Theorem same_prefix_same_entry e1 e2 p1 p2 c1 c2 :
  files e1 p1 = Return c1 ->
  files e2 p2 = Return c2 ->
  take (Z.to_nat (1024 * 1024)) c1 = take (Z.to_nat (1024 * 1024)) c2 ->
  _get_image_hash e1 p1 = MD5.hexdigest (take (Z.to_nat (1024 * 1024)) c1)
  /\ _get_image_hash e1 p1 = _get_image_hash e2 p2
  /\ (forall q, _get_cache_key e1 p1 q = _get_cache_key e2 p2 q)
  /\ (forall q w, get e1 p1 q w = get e2 p2 q w)
  /\ (forall q b x w,
        Py.is_dict (cache (self w)) = true ->
        exists w1, set e1 p1 q b x w = (Return tt, w1)
                   /\ get e2 p2 q w1
                      = (Return (Some (JBool b, JStr x)), count_hit w1)).
Proof.
  intros H1 H2 Hp.
  assert (Hh : _get_image_hash e1 p1 = _get_image_hash e2 p2).
  { by rewrite (image_hash_readable _ _ _ H1), (image_hash_readable _ _ _ H2), Hp. }
  split; [by apply image_hash_readable|]. split; [done|].
  split; [intros q; by apply cache_key_same_hash|].
  split.
  - intros q w. unfold get. by rewrite (cache_key_same_hash e1 e2 p1 p2 q Hh).
  - intros q b x w Hd. by apply set_then_get_same_hash.
Qed.

Lemma get_returns e p q w :
  well_formed w -> exists r w1, get e p q w = (Return r, w1).
Proof.
  intros (m & Hc & _ & Hv).
  destruct (m !! _get_cache_key e p q) as [v|] eqn:Hk.
  - pose proof (Hv _ _ Hk) as Hentry. destruct v as [| | | | | |fields]; try done.
    simpl in Hentry. apply andb_true_iff in Hentry as [Ha Hb].
    apply bool_decide_eq_true in Ha as [a Ha], Hb as [b Hb].
    do 2 eexists. by eapply get_hit.
  - destruct (get_miss e p q w m Hc Hk) as (w1 & Hg & _). eauto.
Qed.

(** On the strings of this part, which UTF-8 can encode: fingerprinting an
    image returns a digest for every path.  When the file cannot be read, the
    digest is that of the path string; [set] then still stores its entry and
    [get] still returns, on a cache of entries.  (For paths with a lone
    surrogate see [Unicode] at the end.) *)
Theorem unreadable_image_fallback e p :
  MD5.is_hexdigest (_get_image_hash e p) = true
  /\ (forall ex, files e p = Raise ex ->
        _get_image_hash e p = MD5.hexdigest (Str.encode p)
        /\ (forall q b x w,
              Py.is_dict (cache (self w)) = true ->
              exists w1, set e p q b x w = (Return tt, w1)
                         /\ get e p q w1
                            = (Return (Some (JBool b, JStr x)), count_hit w1))
        /\ (forall q w, well_formed w ->
              exists r w1, get e p q w = (Return r, w1))).
Proof.
  split; [apply image_hash_shape|]. intros ex Hf.
  split; [by eapply image_hash_unreadable|]. split.
  - intros q b x w Hd. by apply set_then_get_same_hash.
  - intros q w Hw. by apply get_returns.
Qed.

(** ** Loading the cache file *)


Lemma cache_mapping_no_cache_key m : cache_mapping m -> m !! "cache" = None.
Proof.
  intros Hm. destruct (m !! "cache") as [v|] eqn:E; [|done].
  by specialize (Hm _ _ E).
Qed.

Lemma load_wrapped (top : gmap string json) c :
  top !! "cache" = Some c -> _load_cache (Some (Document (JDict top))) = c.
Proof.
  intros H. unfold _load_cache. simpl.
  rewrite bool_decide_true by (rewrite H; eauto). simpl. by rewrite H.
Qed.

Lemma load_legacy (m : gmap string json) :
  m !! "cache" = None -> _load_cache (Some (Document (JDict m))) = JDict m.
Proof.
  intros H. unfold _load_cache. simpl.
  rewrite bool_decide_false by (rewrite H; by intros [? ?]). done.
Qed.

(** C8. For a cache mapping [m] (its keys are composite keys), the file
    [{"cache": m, "metadata": ...}] and the legacy file that holds [m] at
    its top level construct objects with the same cache, which is [m]. *)
Theorem wrapped_and_legacy_load_same m metadata :
  cache_mapping m ->
  let wrapped := JDict (<["cache" := JDict m]> (<["metadata" := metadata]> ∅)) in
  cache (self (__init__ (Some (Document wrapped)))) = JDict m
  /\ cache (self (__init__ (Some (Document (JDict m))))) = JDict m.
Proof.
  intros Hm wrapped. split.
  - apply load_wrapped. apply lookup_insert_eq.
  - apply load_legacy. by apply cache_mapping_no_cache_key.
Qed.

(** The restriction to cache mappings matters: a top-level mapping that
    has a key named "cache" is read as a wrapped file. *)
Remark legacy_with_key_named_cache :
  _load_cache (Some (Document (JDict (<["cache" := JDict ∅]> ∅)))) = JDict ∅.
Proof. reflexivity. Qed.

(** ** Statistics *)

Lemma get_stats_spec e w m :
  cache (self w) = JDict m ->
  exists file_size,
    get_stats e w =
      (Return {| total_cached_entries := Z.of_nat (size m);
                 cache_hits := hits (stats (self w));
                 cache_misses := misses (stats (self w));
                 hit_rate := Fmt.format_1f (hit_rate_of (stats (self w))) +:+ "%";
                 cache_file_size := file_size |}, w).
Proof.
  intros Hc.
  unfold get_stats, _get_cache_file_size; unfold_monad.
  rewrite Hc. simpl.
  destruct (disk w); [|by eexists].
  destruct (st_size e <? 1024); [by eexists|].
  destruct (st_size e <? 1024 * 1024); by eexists.
Qed.

(** C7. [get_stats] reports the hit rate as [hits / (hits + misses) * 100]
    with one decimal and a percent sign: "0.0%" when there has been no
    lookup, "75.0%" after 3 hits and 1 miss. *)
Theorem hit_rate_rendering e w :
  Py.is_dict (cache (self w)) = true ->
  exists r,
    get_stats e w = (Return r, w)
    /\ hit_rate r = Fmt.format_1f (hit_rate_of (stats (self w))) +:+ "%"
    /\ (hits (stats (self w)) = 0 -> misses (stats (self w)) = 0 ->
        hit_rate r = "0.0%")
    /\ (hits (stats (self w)) = 3 -> misses (stats (self w)) = 1 ->
        hit_rate r = "75.0%").
Proof.
  intros Hd. destruct (cache (self w)) as [| | | | | |m] eqn:Hc; try done.
  destruct (get_stats_spec e w m Hc) as [file_size Hs].
  eexists. split; [exact Hs|]. simpl. split; [done|].
  unfold hit_rate_of. split; intros -> ->; reflexivity.
Qed.

(** ** Persisting *)

Lemma save_cache_spec e w :
  _save_cache e w =
    (Return tt,
     {| self := self w;
        disk := match save_data e (self w) with
                | Return data => if writable e then Some (Document data) else disk w
                | Raise _ => disk w
                end |}).
Proof.
  unfold _save_cache, mbind, outcome_bind.
  destruct (save_data e (self w)); [destruct (writable e)|]; by destruct w.
Qed.

(** ** [clear_by_query] *)

Lemma clear_by_query_spec e q w m :
  cache (self w) = JDict m ->
  let kept :=
    filter (fun kv => Str.endswith kv.1 (":" +:+ _get_query_hash q) = false) m in
  exists w',
    clear_by_query e q w
    = (Return (Z.of_nat (size m) - Z.of_nat (size kept)), w')
    /\ cache (self w') = JDict kept
    /\ stats (self w') = stats (self w).
Proof.
  intros Hc kept. eexists.
  unfold clear_by_query; unfold_monad.
  rewrite Hc. simpl. rewrite save_cache_spec. simpl. done.
Qed.

Lemma size_filter_complement (P : string * json -> Prop)
    `{!forall x, Decision (P x)} (m : gmap string json) :
  size m = (size (filter P m) + size (filter (fun x => ~ P x) m))%nat.
Proof.
  rewrite <- (map_filter_union_complement P m) at 1.
  apply map_size_disj_union, map_disjoint_filter_complement.
Qed.

(** C2. For two queries with different fingerprints, [clear_by_query] of
    the first removes every entry whose key has the first fingerprint as
    its query part, for every image, and returns the number of entries
    removed; every entry whose key has the second fingerprint as its query
    part stays as it was.  In particular the two entries of one image under
    the two queries are independent. *)
Theorem clear_by_query_independent e q1 q2 w m :
  cache (self w) = JDict m ->
  _get_query_hash q1 <> _get_query_hash q2 ->
  exists n w' m',
    clear_by_query e q1 w = (Return n, w')
    /\ cache (self w') = JDict m'
    /\ (forall key, query_hash_of key = Return (_get_query_hash q1) ->
                    m' !! key = None)
    /\ (forall key, query_hash_of key = Return (_get_query_hash q2) ->
                    m' !! key = m !! key)
    /\ (forall e' p, m' !! _get_cache_key e' p q1 = None
                     /\ m' !! _get_cache_key e' p q2
                        = m !! _get_cache_key e' p q2)
    /\ m' ⊆ m
    /\ n = Z.of_nat (size m) - Z.of_nat (size m')
    /\ n = Z.of_nat
             (size (filter (fun kv => Str.endswith kv.1
                                        (":" +:+ _get_query_hash q1) = true) m)).
Proof.
  intros Hc Hne.
  destruct (clear_by_query_spec e q1 w m Hc) as (w' & Hr & Hc' & _).
  set (suffix := ":" +:+ _get_query_hash q1) in *.
  set (m' := filter (fun kv => Str.endswith kv.1 suffix = false) m) in *.
  assert (Hgone : forall key, query_hash_of key = Return (_get_query_hash q1) ->
                              m' !! key = None).
  { intros key [a [-> _]]%query_hash_of_inv.
    apply map_lookup_filter_None. right. intros v _. simpl.
    unfold suffix. by rewrite endswith_app. }
  assert (Hkept : forall key, query_hash_of key = Return (_get_query_hash q2) ->
                              m' !! key = m !! key).
  { intros key [a [-> _]]%query_hash_of_inv.
    destruct (m !! (a +:+ ":" +:+ _get_query_hash q2)) as [v|] eqn:Hk.
    - apply map_lookup_filter_Some. split; [done|]. simpl. unfold suffix.
      rewrite endswith_same_length.
      + apply bool_decide_eq_false. intros [= H]. by destruct Hne.
      + change (":" +:+ _get_query_hash q2) with (String ":" (_get_query_hash q2)).
        change (":" +:+ _get_query_hash q1) with (String ":" (_get_query_hash q1)).
        simpl. by rewrite !(is_hexdigest_length _ (query_hash_shape _)).
    - apply map_lookup_filter_None. by left. }
  exists (Z.of_nat (size m) - Z.of_nat (size m')), w', m'.
  split; [done|]. split; [done|]. split; [done|]. split; [done|].
  split.
  { intros e' p. split.
    - apply Hgone, query_hash_of_join, image_hash_shape.
    - apply Hkept, query_hash_of_join, image_hash_shape. }
  split; [apply map_filter_subseteq|]. split; [done|].
  rewrite (size_filter_complement
             (fun kv => Str.endswith kv.1 suffix = false) m).
  fold m'.
  assert (Hf : filter (fun kv => ~ Str.endswith kv.1 suffix = false) m
               = filter (fun kv => Str.endswith kv.1 suffix = true) m).
  { apply map_filter_ext. intros key v _. simpl.
    by destruct (Str.endswith key suffix). }
  rewrite Hf. lia.
Qed.

(** ** [clear_old_entries] *)

Lemma keep_where_raises p (l : list (string * json)) key v ex :
  (key, v) ∈ l -> p key v = Raise ex ->
  exists ex', Py.keep_where p l = Raise ex'.
Proof.
  intros Hin Hp. induction l as [|[k' v'] l IH]; [by apply not_elem_of_nil in Hin|].
  simpl. unfold mbind, outcome_bind.
  apply elem_of_cons in Hin as [[= <- <-]|Hin].
  - rewrite Hp. eauto.
  - destruct (p k' v'); [|eauto].
    destruct (IH Hin) as [ex' ->]. eauto.
Qed.

Lemma keep_where_sublist p (l l' : list (string * json)) :
  Py.keep_where p l = Return l' -> sublist l' l.
Proof.
  revert l'. induction l as [|[k v] l IH]; intros l'; simpl.
  - intros [= <-]. done.
  - unfold mbind, outcome_bind. destruct (p k v) as [b|]; [|done].
    destruct (Py.keep_where p l) as [rest|]; [|done].
    intros [= <-]. specialize (IH _ eq_refl).
    destruct b; by constructor.
Qed.

Lemma dict_where_raises p (m : gmap string json) key v ex :
  m !! key = Some v -> p key v = Raise ex ->
  exists ex', Py.dict_where p m = Raise ex'.
Proof.
  intros Hk Hp. unfold Py.dict_where, mbind, outcome_bind.
  destruct (keep_where_raises p (map_to_list m) key v ex) as [ex' ->]; [|done|eauto].
  by apply elem_of_map_to_list.
Qed.

Lemma dict_where_subseteq p (m m' : gmap string json) :
  Py.dict_where p m = Return m' -> m' ⊆ m.
Proof.
  unfold Py.dict_where, mbind, outcome_bind.
  destruct (Py.keep_where p (map_to_list m)) as [l|] eqn:E; [|done].
  intros [= <-]. apply keep_where_sublist in E.
  apply map_subseteq_spec. intros k v Hkv.
  apply elem_of_map_to_list. eapply elem_of_sublist; [|exact E].
  apply elem_of_list_to_map; [|done].
  eapply sublist_NoDup; [apply (NoDup_fst_map_to_list m)|by apply fmap_sublist].
Qed.

(** An entry whose timestamp string is not parsable makes the condition
    of the comprehension raise [ValueError]. *)
Lemma is_recent_unparsable cutoff key fields s :
  fields !! "timestamp" = Some (JStr s) ->
  fromisoformat s = None ->
  is_recent cutoff key (JDict fields) = Raise ValueError.
Proof.
  intros Ht Hs. unfold is_recent, mbind, outcome_bind. simpl.
  by rewrite Ht, Hs.
Qed.

(** On every cache that holds an entry with an unparsable timestamp,
    [clear_old_entries] raises: no entry is removed and nothing is saved. *)
Lemma clear_old_entries_unparsable e days w m key fields s :
  cache (self w) = JDict m ->
  m !! key = Some (JDict fields) ->
  fields !! "timestamp" = Some (JStr s) ->
  fromisoformat s = None ->
  exists ex, clear_old_entries e days w = (Raise ex, w).
Proof.
  intros Hc Hk Ht Hs.
  unfold clear_old_entries; unfold_monad.
  destruct (minus_days (now e) days) as [cutoff|]; simpl; [|eauto].
  rewrite Hc. simpl.
  destruct (dict_where_raises (is_recent cutoff) m key (JDict fields) ValueError)
    as [ex ->]; [done| |eauto].
  by eapply is_recent_unparsable.
Qed.

(** ** What each call does to the object and the file *)

Lemma cache_file_size_spec e w :
  exists s, _get_cache_file_size e w = (Return s, w).
Proof.
  unfold _get_cache_file_size. destruct (disk w); [|by eexists].
  destruct (st_size e <? 1024); [by eexists|].
  destruct (st_size e <? 1024 * 1024); by eexists.
Qed.

Lemma get_stats_world e w : (get_stats e w).2 = w.
Proof.
  unfold get_stats; unfold_monad.
  simpl. destruct (Py.len (cache (self w))); [|done].
  by destruct (cache_file_size_spec e w) as [s ->].
Qed.

Lemma get_world e p q w :
  (get e p q w).2 = w
  \/ exists s, (get e p q w).2 = with_stats s w
               /\ total_queries s = total_queries (stats (self w)).
Proof.
  unfold get; unfold_monad.
  simpl. destruct (Py.contains _ _) as [[]|]; simpl; [| |by left].
  - right.
    exists {| hits := hits (stats (self w)) + 1; misses := misses (stats (self w));
              total_queries := total_queries (stats (self w)) |}.
    split; [|reflexivity].
    destruct (Py.getitem (cache (self w)) _) as [entry|]; simpl; [|done].
    destruct (Py.getitem entry "is_match"); simpl; [|done].
    by destruct (Py.getitem entry "explanation").
  - right.
    by exists {| hits := hits (stats (self w)); misses := misses (stats (self w)) + 1;
                 total_queries := total_queries (stats (self w)) |}.
Qed.

Lemma set_world e p q b x w :
  (set e p q b x w).2 = w
  \/ exists m, cache (self w) = JDict m
               /\ (set e p q b x w).2
                  = with_cache
                      (JDict (<[_get_cache_key e p q := new_entry e p b x]> m)) w.
Proof.
  destruct (cache (self w)) as [| | | | | |m] eqn:Hc;
    try (left; unfold set, mbind, M_bind, lift, get_cache; simpl; by rewrite Hc).
  right. exists m. split; [done|]. by rewrite (set_spec _ _ _ _ _ _ _ Hc).
Qed.

Lemma clear_old_entries_world e days w :
  (clear_old_entries e days w).2 = w
  \/ exists m kept, cache (self w) = JDict m /\ kept ⊆ m
                    /\ (clear_old_entries e days w).2
                       = (_save_cache e (with_cache (JDict kept) w)).2.
Proof.
  unfold clear_old_entries; unfold_monad.
  destruct (minus_days (now e) days) as [cutoff|]; simpl; [|by left].
  destruct (cache (self w)) as [| | | | | |m] eqn:Hc; simpl; try by left.
  destruct (Py.dict_where (is_recent cutoff) m) as [kept|] eqn:Hk; simpl;
    [|by left].
  right. exists m, kept. split; [done|]. split; [by eapply dict_where_subseteq|].
  unfold with_cache. by destruct (_save_cache e _) as [[] ?].
Qed.

Lemma clear_by_query_world e q w :
  (clear_by_query e q w).2 = w
  \/ exists m kept, cache (self w) = JDict m /\ kept ⊆ m
                    /\ (clear_by_query e q w).2
                       = (_save_cache e (with_cache (JDict kept) w)).2.
Proof.
  unfold clear_by_query; unfold_monad.
  destruct (cache (self w)) as [| | | | | |m] eqn:Hc; simpl; try by left.
  right.
  exists m, (filter (fun kv => Str.endswith kv.1 (":" +:+ _get_query_hash q) = false) m).
  split; [done|]. split; [apply map_filter_subseteq|].
  unfold with_cache. by destruct (_save_cache e _) as [[] ?].
Qed.

Lemma clear_all_world e w :
  (clear_all e w).2 = w
  \/ (clear_all e w).2 = (_save_cache e (with_cache (JDict ∅) w)).2.
Proof.
  unfold clear_all; unfold_monad.
  destruct (Py.len (cache (self w))); simpl; [|by left].
  right. unfold with_cache, empty_dict. by destruct (_save_cache e _) as [[] ?].
Qed.

Lemma get_queries_analyzed_world w : (get_queries_analyzed w).2 = w.
Proof.
  unfold get_queries_analyzed; unfold_monad.
  simpl. destruct (Py.items _); simpl; [|done]. by destruct (Py.for_each _ _).
Qed.

Lemma save_cache_self e w : self (_save_cache e w).2 = self w.
Proof. by rewrite save_cache_spec. Qed.

(** No call changes [total_queries]. *)
Lemma exec_total_queries e c w :
  total_queries (stats (self (exec e c w))) = total_queries (stats (self w)).
Proof.
  destruct c; simpl.
  - destruct (get_world e image_path expanded_query w) as [->|(s & -> & Hs)]; done.
  - destruct (set_world e image_path expanded_query is_match explanation w)
      as [->|(m & _ & ->)]; done.
  - unfold save. by rewrite save_cache_self.
  - by rewrite get_stats_world.
  - destruct (clear_old_entries_world e days w) as [->|(m & kept & _ & _ & ->)];
      [done|]. by rewrite save_cache_self.
  - destruct (clear_by_query_world e expanded_query w)
      as [->|(m & kept & _ & _ & ->)]; [done|]. by rewrite save_cache_self.
  - destruct (clear_all_world e w) as [->| ->]; [done|].
    by rewrite save_cache_self.
  - by rewrite get_queries_analyzed_world.
Qed.

(** A cache that is a mapping stays one: a call leaves it, shrinks it, or
    is a [set] and inserts the entry under the composite key. *)
Lemma exec_dict e c w m :
  cache (self w) = JDict m ->
  exists m', cache (self (exec e c w)) = JDict m'
             /\ (m' ⊆ m
                 \/ exists p q b x,
                     c = Set_ p q b x
                     /\ m' = <[_get_cache_key e p q := new_entry e p b x]> m).
Proof.
  intros Hc. destruct c; simpl.
  - exists m. split; [|by left].
    destruct (get_world e image_path expanded_query w) as [->|(s & -> & Hs)]; done.
  - rewrite (set_spec _ _ _ _ _ _ _ Hc). simpl. eexists. split; [done|].
    right. by do 4 eexists.
  - unfold save. rewrite save_cache_self. exists m. split; [done|by left].
  - rewrite get_stats_world. exists m. split; [done|by left].
  - destruct (clear_old_entries_world e days w) as [->|(m0 & kept & Hm & Hk & ->)].
    + exists m. split; [done|by left].
    + rewrite save_cache_self. exists kept. split; [done|]. left.
      rewrite Hc in Hm. by injection Hm as ->.
  - destruct (clear_by_query_world e expanded_query w)
      as [->|(m0 & kept & Hm & Hk & ->)].
    + exists m. split; [done|by left].
    + rewrite save_cache_self. exists kept. split; [done|]. left.
      rewrite Hc in Hm. by injection Hm as ->.
  - destruct (clear_all_world e w) as [->| ->].
    + exists m. split; [done|by left].
    + rewrite save_cache_self. exists ∅. split; [done|]. left.
      apply map_empty_subseteq.
  - rewrite get_queries_analyzed_world. exists m. split; [done|by left].
Qed.

Lemma save_data_total_queries e o data :
  save_data e o = Return data ->
  saved_total_queries data = Return (JInt (total_queries (stats o))).
Proof.
  unfold save_data, mbind, outcome_bind.
  destruct (Py.len (cache o)); [|done]. by intros [= <-].
Qed.

Lemma save_cache_disk e w :
  disk (_save_cache e w).2 = disk w
  \/ exists data, disk (_save_cache e w).2 = Some (Document data)
                  /\ saved_total_queries data
                     = Return (JInt (total_queries (stats (self w)))).
Proof.
  rewrite save_cache_spec. simpl.
  destruct (save_data e (self w)) as [data|] eqn:Hd; [|by left].
  destruct (writable e); [|by left].
  right. exists data. split; [done|]. by eapply save_data_total_queries.
Qed.

(** A call leaves the file as it is or writes a document whose
    [total_queries] is that of the object. *)
Lemma exec_disk e c w :
  disk (exec e c w) = disk w
  \/ exists data, disk (exec e c w) = Some (Document data)
                  /\ saved_total_queries data
                     = Return (JInt (total_queries (stats (self w)))).
Proof.
  destruct c; simpl.
  - left. destruct (get_world e image_path expanded_query w) as [->|(s & -> & Hs)]; done.
  - left. destruct (set_world e image_path expanded_query is_match explanation w)
      as [->|(m & _ & ->)]; done.
  - apply save_cache_disk.
  - left. by rewrite get_stats_world.
  - destruct (clear_old_entries_world e days w) as [->|(m & kept & _ & _ & ->)];
      [by left|]. apply (save_cache_disk e (with_cache (JDict kept) w)).
  - destruct (clear_by_query_world e expanded_query w)
      as [->|(m & kept & _ & _ & ->)];
      [by left|]. apply (save_cache_disk e (with_cache (JDict kept) w)).
  - destruct (clear_all_world e w) as [->| ->]; [by left|].
    apply (save_cache_disk e (with_cache (JDict ∅) w)).
  - left. by rewrite get_queries_analyzed_world.
Qed.

(** ** Runs *)

Lemma map_Forall_weaken (P : string -> json -> Prop) (m m' : gmap string json) :
  m' ⊆ m -> map_Forall P m -> map_Forall P m'.
Proof. intros Hs Hm k v Hk. apply Hm. by eapply lookup_weaken. Qed.

Lemma exec_cache_Forall (P : string -> json -> Prop) :
  (forall e p q b x, P (_get_cache_key e p q) (new_entry e p b x)) ->
  forall e c w, cache_Forall P w -> cache_Forall P (exec e c w).
Proof.
  intros Hnew e c w (m & Hc & Hm).
  destruct (exec_dict e c w m Hc) as (m' & Hc' & [Hs|(p & q & b & x & _ & ->)]).
  - exists m'. split; [done|]. by eapply map_Forall_weaken.
  - eexists. split; [done|]. by apply map_Forall_insert_2.
Qed.

Lemma run_cache_Forall (P : string -> json -> Prop) :
  (forall e p q b x, P (_get_cache_key e p q) (new_entry e p b x)) ->
  forall calls w, cache_Forall P w -> cache_Forall P (run calls w).
Proof.
  intros Hnew calls. induction calls as [|[e c] calls IH]; intros w Hw; [done|].
  simpl. apply IH. by apply exec_cache_Forall.
Qed.

Lemma exec_keyed e c w : keyed w -> keyed (exec e c w).
Proof. apply exec_cache_Forall. intros. apply cache_key_shape. Qed.

Lemma run_keyed calls w : keyed w -> keyed (run calls w).
Proof. apply run_cache_Forall. intros. apply cache_key_shape. Qed.

Lemma well_formed_alt w :
  well_formed w
  <-> cache_Forall (fun key v => is_cache_key key = true /\ is_entry v = true) w.
Proof.
  split.
  - intros (m & Hc & Hk & Hv). exists m. split; [done|].
    intros k v Hkv. split; [by eapply Hk | by eapply Hv].
  - intros (m & Hc & Hm). exists m. split; [done|].
    split; intros k v Hkv; by destruct (Hm k v Hkv).
Qed.

(** Every call keeps a cache of entries under composite keys so. *)
Lemma exec_well_formed e c w : well_formed w -> well_formed (exec e c w).
Proof.
  rewrite !well_formed_alt. apply exec_cache_Forall.
  intros. split; [apply cache_key_shape | reflexivity].
Qed.

Lemma run_well_formed calls w : well_formed w -> well_formed (run calls w).
Proof.
  rewrite !well_formed_alt. apply run_cache_Forall.
  intros. split; [apply cache_key_shape | reflexivity].
Qed.

Lemma init_empty_well_formed d :
  _load_cache d = JDict ∅ -> well_formed (__init__ d).
Proof.
  intros H. exists ∅. split; [done|]. split; apply map_Forall_empty.
Qed.

Lemma run_total_queries calls w :
  total_queries (stats (self (run calls w))) = total_queries (stats (self w)).
Proof.
  revert w. induction calls as [|[e c] calls IH]; intros w; [done|].
  simpl. by rewrite IH, exec_total_queries.
Qed.

Lemma run_disk calls w :
  disk (run calls w) = disk w
  \/ exists data, disk (run calls w) = Some (Document data)
                  /\ saved_total_queries data
                     = Return (JInt (total_queries (stats (self w)))).
Proof.
  revert w. induction calls as [|[e c] calls IH]; intros w; [by left|].
  simpl. destruct (IH (exec e c w)) as [Hd|(data & Hd & Ht)].
  - rewrite Hd. apply exec_disk.
  - right. exists data. split; [done|]. by rewrite Ht, exec_total_queries.
Qed.

(** C10. [total_queries] is 0 after construction and no call changes it:
    it is 0 in the object after every run, in the metadata block of every
    document that a run has written to the file, and in the block that a
    [save] would write next. *)
Theorem total_queries_always_zero d calls :
  let w := run calls (__init__ d) in
  total_queries (stats (self w)) = 0
  /\ (disk w = d
      \/ exists data, disk w = Some (Document data)
                      /\ saved_total_queries data = Return (JInt 0))
  /\ (forall e data, save_data e (self w) = Return data ->
                     saved_total_queries data = Return (JInt 0))
  /\ (forall e c w0,
        total_queries (stats (self (exec e c w0)))
        = total_queries (stats (self w0))).
Proof.
  intros w.
  assert (H0 : total_queries (stats (self w)) = 0).
  { unfold w. by rewrite run_total_queries. }
  split; [done|]. split; [apply (run_disk calls (__init__ d))|].
  split; [|apply exec_total_queries].
  intros e data Hd. apply save_data_total_queries in Hd. by rewrite H0 in Hd.
Qed.

(** ** Composite keys *)

Lemma cache_key_one_colon ih qh :
  MD5.is_hexdigest ih = true -> MD5.is_hexdigest qh = true ->
  Str.count ":" (ih +:+ ":" +:+ qh) = 1%nat.
Proof.
  intros Hi Hq. rewrite !count_app.
  rewrite (is_hexdigest_no_colon _ Hi), (is_hexdigest_no_colon _ Hq). done.
Qed.

(** What a composite key is, for the two places that take keys apart. *)
Lemma is_cache_key_parts key :
  is_cache_key key = true ->
  exists ih qh,
    key = ih +:+ ":" +:+ qh
    /\ MD5.is_hexdigest ih = true /\ MD5.is_hexdigest qh = true
    /\ Str.count ":" key = 1%nat
    /\ query_hash_of key = Return qh
    /\ forall h, MD5.is_hexdigest h = true ->
                 Str.endswith key (":" +:+ h) = bool_decide (qh = h).
Proof.
  intros (ih & qh & -> & Hi & Hq)%is_cache_key_inv. exists ih, qh.
  split; [done|]. split; [done|]. split; [done|].
  split; [by apply cache_key_one_colon|].
  split; [by apply query_hash_of_join|].
  intros h Hh. by apply endswith_query_hash.
Qed.

Lemma for_each_returns (l : list string) :
  Forall (fun key => is_cache_key key = true) l ->
  exists hs, Py.for_each query_hash_of l = Return hs
             /\ forall qh, qh ∈ hs
                           <-> exists key, key ∈ l /\ query_hash_of key = Return qh.
Proof.
  induction 1 as [|key l Hkey _ (hs & Hhs & Hin)]; simpl.
  - exists []. split; [done|]. intros qh. split.
    + by intros ?%not_elem_of_nil.
    + by intros (key & ?%not_elem_of_nil & _).
  - destruct (is_cache_key_parts key Hkey) as (ih & qh0 & _ & _ & _ & _ & Hq & _).
    unfold mbind, outcome_bind. rewrite Hq, Hhs. exists (qh0 :: hs).
    split; [done|]. intros qh. rewrite elem_of_cons, Hin. split.
    + intros [->|(k & Hk & Hkq)].
      * exists key. split; [left|done].
      * exists k. split; [by right|done].
    + intros (k & [->|Hk]%elem_of_cons & Hkq).
      * left. congruence.
      * right. eauto.
Qed.

Lemma get_queries_analyzed_keyed w m :
  cache (self w) = JDict m -> cache_mapping m ->
  exists hashes : gset string,
    get_queries_analyzed w = (Return hashes, w)
    /\ forall qh, qh ∈ hashes
                  <-> exists key, is_Some (m !! key)
                                  /\ query_hash_of key = Return qh.
Proof.
  intros Hc Hm.
  destruct (for_each_returns (elements (dom m))) as (hs & Hhs & Hin).
  { apply Forall_forall. intros key [v Hv]%elem_of_elements%elem_of_dom.
    by eapply Hm. }
  exists (list_to_set hs). split.
  - unfold get_queries_analyzed; unfold_monad.
    rewrite Hc. simpl. by rewrite Hhs.
  - intros qh. rewrite elem_of_list_to_set, Hin.
    by setoid_rewrite elem_of_elements; setoid_rewrite elem_of_dom.
Qed.

Lemma clear_by_query_keyed e q w m :
  cache (self w) = JDict m -> cache_mapping m ->
  cache (self (exec e (ClearByQuery q) w))
  = JDict (filter (fun kv => query_hash_of kv.1 <> Return (_get_query_hash q)) m).
Proof.
  intros Hc Hm. simpl.
  destruct (clear_by_query_spec e q w m Hc) as (w' & Hr & Hc' & _).
  rewrite Hr. simpl. rewrite Hc'. f_equal. apply map_filter_ext. intros key v Hk. simpl.
  destruct (is_cache_key_parts key (Hm _ _ Hk))
    as (ih & qh & _ & _ & _ & _ & Hq & He).
  rewrite Hq, (He _ (query_hash_shape q)), bool_decide_eq_false.
  split; congruence.
Qed.

(** C9. [set] inserts its entry under a key made of two hexdigests (32
    lowercase hexadecimal characters each) joined by the only colon of the
    key, and every call keeps a cache whose keys all have this form.  So in
    a cache that started empty, every key is such a pair;
    [get_queries_analyzed], which splits at the first colon, returns the
    query parts of the keys; and the suffix test of [clear_by_query]
    removes the entries whose query part is the hash of the query. *)
Theorem composite_key_invariant :
  (forall e p q b x w m,
     cache (self w) = JDict m ->
     exists ih,
       MD5.is_hexdigest ih = true
       /\ MD5.is_hexdigest (_get_query_hash q) = true
       /\ Str.count ":" (ih +:+ ":" +:+ _get_query_hash q) = 1%nat
       /\ cache (self (exec e (Set_ p q b x) w))
          = JDict (<[ih +:+ ":" +:+ _get_query_hash q := new_entry e p b x]> m))
  /\ (forall e c w, keyed w -> keyed (exec e c w))
  /\ (forall calls w0,
        cache (self w0) = JDict ∅ ->
        exists m,
          cache (self (run calls w0)) = JDict m
          /\ (forall key,
                is_Some (m !! key) ->
                exists ih qh,
                  key = ih +:+ ":" +:+ qh
                  /\ MD5.is_hexdigest ih = true /\ MD5.is_hexdigest qh = true
                  /\ Str.count ":" key = 1%nat
                  /\ query_hash_of key = Return qh
                  /\ forall h, MD5.is_hexdigest h = true ->
                               Str.endswith key (":" +:+ h) = bool_decide (qh = h))
          /\ (exists hashes : gset string,
                get_queries_analyzed (run calls w0)
                = (Return hashes, run calls w0)
                /\ forall qh, qh ∈ hashes
                              <-> exists key, is_Some (m !! key)
                                              /\ query_hash_of key = Return qh)
          /\ (forall e q,
                cache (self (exec e (ClearByQuery q) (run calls w0)))
                = JDict (filter (fun kv => query_hash_of kv.1
                                           <> Return (_get_query_hash q)) m))).
Proof.
  split; [|split].
  - intros e p q b x w m Hc. exists (_get_image_hash e p).
    split; [apply image_hash_shape|]. split; [apply query_hash_shape|].
    split; [apply cache_key_one_colon;
            [apply image_hash_shape|apply query_hash_shape]|].
    simpl. by rewrite (set_spec _ _ _ _ _ _ _ Hc).
  - apply exec_keyed.
  - intros calls w0 H0.
    destruct (run_keyed calls w0) as (m & Hc & Hm).
    { exists ∅. split; [done|]. apply map_Forall_empty. }
    exists m. split; [done|]. split; [|split].
    + intros key [v Hv]. apply is_cache_key_parts. by eapply Hm.
    + by apply get_queries_analyzed_keyed.
    + intros e q. by apply clear_by_query_keyed.
Qed.

End Properties.

Lemma set_then_get_witness :
  Py.is_dict (cache (self Sample.fresh)) = true
  /\ files Sample.e "photo1.jpg" = files Sample.e "photo1.jpg"
  /\ exists w1,
      set Sample.e "photo1.jpg" "ocean scene" true "water visible" Sample.fresh
      = (Return tt, w1)
      /\ get Sample.e "photo1.jpg" "ocean scene" w1
         = (Return (Some (JBool true, JStr "water visible")), count_hit w1).
Proof.
  split; [reflexivity|]. split; [reflexivity|].
  apply (set_then_get Sample.e Sample.e); reflexivity.
Defined.

Lemma take_first_mib (tail : list byte) :
  take (Z.to_nat (1024 * 1024)) (replicate (Z.to_nat (1024 * 1024)) x00 ++ tail)
  = replicate (Z.to_nat (1024 * 1024)) x00.
Proof. apply take_app_length'. symmetry. apply length_replicate. Qed.

Lemma same_prefix_same_entry_witness :
  files Sample.e "a.raw" = Return Sample.long_a
  /\ files Sample.e "b.raw" = Return Sample.long_b
  /\ Sample.long_a <> Sample.long_b
  /\ _get_image_hash Sample.e "a.raw" = _get_image_hash Sample.e "b.raw"
  /\ forall q, _get_cache_key Sample.e "a.raw" q = _get_cache_key Sample.e "b.raw" q.
Proof.
  split; [reflexivity|]. split; [reflexivity|]. split.
  { unfold Sample.long_a, Sample.long_b. intros H.
    apply (f_equal length) in H. rewrite !length_app in H.
    cbn [length] in H. lia. }
  destruct (same_prefix_same_entry Sample.e Sample.e "a.raw" "b.raw"
              Sample.long_a Sample.long_b) as (_ & H & Hk & _).
  - reflexivity.
  - reflexivity.
  - unfold Sample.long_a, Sample.long_b. by rewrite !take_first_mib.
  - split; [exact H | exact Hk].
Defined.

Lemma unreadable_image_fallback_witness :
  files Sample.e "gone.jpg" = Raise OSError
  /\ _get_image_hash Sample.e "gone.jpg" = MD5.hexdigest (Str.encode "gone.jpg")
  /\ exists w1,
      set Sample.e "gone.jpg" "ocean scene" false "no water" Sample.fresh
      = (Return tt, w1)
      /\ get Sample.e "gone.jpg" "ocean scene" w1
         = (Return (Some (JBool false, JStr "no water")), count_hit w1).
Proof.
  split; [reflexivity|].
  destruct (unreadable_image_fallback Sample.e "gone.jpg") as [_ H].
  destruct (H OSError eq_refl) as (Hh & Hs & _).
  split; [exact Hh|]. apply Hs. reflexivity.
Defined.


Lemma wrapped_and_legacy_load_same_witness :
  let m : gmap string json :=
    <[_get_cache_key Sample.e "photo1.jpg" "ocean scene" := Sample.bad_entry]> ∅ in
  cache_mapping m
  /\ cache (self (__init__ (Some (Document
       (JDict (<["cache" := JDict m]> (<["metadata" := JNull]> ∅))))))) = JDict m
  /\ cache (self (__init__ (Some (Document (JDict m))))) = JDict m.
Proof.
  intros m.
  assert (Hm : cache_mapping m).
  { apply map_Forall_insert_2; [apply cache_key_shape | apply map_Forall_empty]. }
  split; [exact Hm|]. exact (wrapped_and_legacy_load_same m JNull Hm).
Defined.

Lemma hit_rate_rendering_witness :
  Py.is_dict (cache (self Sample.fresh)) = true
  /\ exists r, get_stats Sample.e Sample.fresh = (Return r, Sample.fresh)
               /\ hit_rate r = "0.0%".
Proof.
  split; [reflexivity|].
  destruct (hit_rate_rendering Sample.e Sample.fresh eq_refl)
    as (r & Hr & _ & H0 & _).
  exists r. split; [exact Hr|]. apply H0; reflexivity.
Defined.

(** C3. A cache file that holds one entry whose timestamp is not a date
    loads without complaint, and then [clear_old_entries(30)] raises
    [ValueError] to its caller: the sweep is abandoned, no entry is removed
    and nothing is saved. *)
Theorem clear_old_entries_aborts_on_unparsable_timestamp :
  let w := __init__ (Some Sample.legacy_file) in
  cache (self w)
  = JDict (<[_get_cache_key Sample.e "photo1.jpg" "ocean scene" := Sample.bad_entry]> ∅)
  /\ fromisoformat "yesterday" = None
  /\ clear_old_entries Sample.e 30 w = (Raise ValueError, w).
Proof. cbv zeta. split; [|split]; vm_compute; reflexivity. Qed.

Lemma clear_by_query_independent_witness :
  let k1 := _get_cache_key Sample.e "photo1.jpg" "ocean scene" in
  let k2 := _get_cache_key Sample.e "photo1.jpg" "mountain scene" in
  let v1 := new_entry Sample.e "photo1.jpg" true "water visible" in
  let v2 := new_entry Sample.e "photo1.jpg" false "no peaks" in
  let m : gmap string json := <[k2 := v2]> (<[k1 := v1]> ∅) in
  let w := run [(Sample.e, Set_ "photo1.jpg" "ocean scene" true "water visible");
                (Sample.e, Set_ "photo1.jpg" "mountain scene" false "no peaks")]
               Sample.fresh in
  cache (self w) = JDict m
  /\ _get_query_hash "ocean scene" <> _get_query_hash "mountain scene"
  /\ exists w' m',
      clear_by_query Sample.e "ocean scene" w = (Return 1, w')
      /\ cache (self w') = JDict m'
      /\ m' !! k1 = None
      /\ m' !! k2 = Some v2.
Proof.
  intros k1 k2 v1 v2 m w.
  assert (Hc : cache (self w) = JDict m) by reflexivity.
  assert (Hne : _get_query_hash "ocean scene" <> _get_query_hash "mountain scene")
    by (vm_compute; discriminate).
  split; [exact Hc|]. split; [exact Hne|].
  destruct (clear_by_query_independent Sample.e "ocean scene" "mountain scene"
              w m Hc Hne)
    as (n & w' & m' & Hr & Hc' & _ & _ & Hi & _ & _ & Hn).
  destruct (Hi Sample.e "photo1.jpg") as [H1 H2].
  exists w', m'. split; [|split; [exact Hc'|split; [exact H1|]]].
  - rewrite Hr. f_equal. f_equal. rewrite Hn. vm_compute. reflexivity.
  - unfold k2. rewrite H2. apply lookup_insert_eq.
Defined.

(** ** Examples *)

Example md5_empty :
  MD5.hexdigest (Str.encode "") = "d41d8cd98f00b204e9800998ecf8427e".
Proof. vm_compute. reflexivity. Qed.

Example md5_abc :
  MD5.hexdigest (Str.encode "abc") = "900150983cd24fb0d6963f7d28e17f72".
Proof. vm_compute. reflexivity. Qed.

Example md5_two_blocks :
  MD5.hexdigest (replicate 56 "a"%byte) = "3b0c8ac703f828b04c6c197006d17218".
Proof. vm_compute. reflexivity. Qed.

Example md5_block_boundary :
  MD5.hexdigest (replicate 64 "a"%byte) = "014842d480b571495a4a0363793f7367".
Proof. vm_compute. reflexivity. Qed.

Example query_hash_ocean_scene :
  _get_query_hash "ocean scene" = "399212b8d66c819d3bb722094e4403ff".
Proof. vm_compute. reflexivity. Qed.

Example fixed1_examples :
  map (fun '(a, b) => Fmt.fixed1 (Fmt.mul_int (Fmt.truediv_int a b) 100))
      [(3, 4); (1, 3); (2, 3); (1, 2000); (1, 8); (5, 8); (1, 16)]
  = ["75.0"; "33.3"; "66.7"; "0.1"; "12.5"; "62.5"; "6.2"].
Proof. vm_compute. reflexivity. Qed.

Example isoformat_round_trip :
  Iso.to_iso Sample.clock = "2026-11-03T14:51:07.001234"
  /\ Iso.of_iso "2026-11-03T14:51:07.001234" = Some Sample.clock
  /\ (Iso.to_iso <$> Iso.sub_days Sample.clock 30)
     = Some "2026-10-04T14:51:07.001234".
Proof. vm_compute. auto. Qed.

(** The scenario of the specification: one stored verdict, one hit, one
    miss. *)
Example scenario :
  let w1 := (set Sample.e "photo1.jpg" "ocean scene" true "water visible"
                 Sample.fresh).2 in
  let '(r2, w2) := get Sample.e "photo1.jpg" "ocean scene" w1 in
  let '(r3, w3) := get Sample.e "photo1.jpg" "mountain scene" w2 in
  r2 = Return (Some (JBool true, JStr "water visible"))
  /\ r3 = Return None
  /\ (cache_hits <$> (get_stats Sample.e w3).1) = Return 1
  /\ (cache_misses <$> (get_stats Sample.e w3).1) = Return 1
  /\ (hit_rate <$> (get_stats Sample.e w3).1) = Return "50.0%".
Proof. vm_compute. auto. Qed.

(** Three hits and one miss, from a fresh object. *)
Example three_hits_one_miss :
  let w := run [(Sample.e, Set_ "photo1.jpg" "ocean scene" true "water visible");
                (Sample.e, Get "photo1.jpg" "ocean scene");
                (Sample.e, Get "backup/IMG_0001.jpg" "ocean scene");
                (Sample.e, Get "photo1.jpg" "mountain scene");
                (Sample.e, Get "photo1.jpg" "ocean scene")]
               Sample.fresh in
  hits (stats (self w)) = 3 /\ misses (stats (self w)) = 1
  /\ (hit_rate <$> (get_stats Sample.e w).1) = Return "75.0%".
Proof. vm_compute. auto. Qed.

(** The sweep on well-formed timestamps: with the clock at 2026-11-03, the
    entry of 2026-09-01 is older than 30 days and goes, the entry of
    2026-10-20 stays, and the result is saved. *)
Example clear_old_entries_sweeps :
  let result := clear_old_entries Sample.e 30 (__init__ (Some Sample.aged_file)) in
  let kept := cache (self result.2) in
  result.1 = Return 1
  /\ Py.contains kept Sample.old_key = Return false
  /\ Py.getitem kept Sample.recent_key
     = Return (Sample.entry_at "2026-10-20T08:00:00.500000")
  /\ (file ← or_raise OSError (disk result.2);
      data ← json_load file;
      saved ← Py.getitem data "cache";
      Py.len saved) = Return 1.
Proof. cbv zeta. repeat split; vm_compute; reflexivity. Qed.

(** * Further properties of the class *)

(** What [get] returns for the value found under the key, if any. *)
Definition verdict_of (found : option json) : outcome (option (json * json)) :=
  match found with
  | None => Return None
  | Some entry =>
      is_match ← Py.getitem entry "is_match";
      explanation ← Py.getitem entry "explanation";
      Return (Some (is_match, explanation))
  end.

(** The world after a miss has been counted. *)
Definition count_miss (w : world) : world :=
  with_stats {| hits := hits (stats (self w));
                misses := misses (stats (self w)) + 1;
                total_queries := total_queries (stats (self w)) |} w.

Definition is_get (c : call) : bool :=
  match c with Get _ _ => true | _ => false end.

(** The number of [get] calls of a run. *)
Fixpoint count_gets {E} (calls : list (E * call)) : Z :=
  match calls with
  | [] => 0
  | (_, c) :: calls' => (if is_get c then 1 else 0) + count_gets calls'
  end.

(** A call raised. *)
Definition raised {A} (r : outcome A * world) : Prop :=
  exists ex, r.1 = Raise ex.

(** The calls that write the cache file. *)
Definition writes (c : call) : bool :=
  match c with
  | Save | ClearOldEntries _ | ClearByQuery _ | ClearAll => true
  | _ => false
  end.


(** ** The command line of the module ([if __name__ == "__main__"])

    [str.lower()] is modelled on the letters A to Z.  Python also lowers
    letters outside ASCII; none of them becomes a letter of "stats",
    "clear" or "clean" (the Kelvin sign, which becomes "k", is the only one
    that becomes an ASCII letter), so the branch taken is the same. *)

Module Cli.



End Cli.

Section Main.

Context `{DT : DateTime}.

(** [int(text)] on a command-line argument; [None] is [ValueError]. *)
Variable int : string -> option Z.


End Main.

(** ** Sample caches for the examples of this part *)

Module Sample2.

(** A legacy file whose only value is not an entry. *)
Definition broken_file : stored :=
  Document (JDict (<[Sample.recent_key := JStr "not an entry"]> ∅)).

(** A legacy file with a key that has no colon. *)
Definition odd_keys_file : stored :=
  Document (JDict (<["README" := Sample.bad_entry]> ∅)).

(** The cache of [Sample.aged_file]. *)
Definition aged : gmap string json :=
  <[Sample.old_key := Sample.entry_at "2026-09-01T08:00:00"]>
    (<[Sample.recent_key := Sample.entry_at "2026-10-20T08:00:00.500000"]> ∅).


(** [Sample.clock] minus 30 days. *)
Definition cutoff : Iso.naive :=
  {| Iso.year := 2026; Iso.month := 10; Iso.day := 4;
     Iso.hour := 14; Iso.minute := 51; Iso.second := 7;
     Iso.microsecond := 1234 |}.

End Sample2.

Section MoreProperties.

Context `{DT : DateTime}.

Ltac unfold_monad :=
  unfold mbind, M_bind, mret, M_ret, lift, get_cache, put_cache,
    get_stats_dict, put_stats.

(** ** Keys *)

Lemma cache_key_inj e1 e2 p1 p2 q1 q2 :
  _get_cache_key e1 p1 q1 = _get_cache_key e2 p2 q2 ->
  _get_image_hash e1 p1 = _get_image_hash e2 p2
  /\ _get_query_hash q1 = _get_query_hash q2.
Proof.
  unfold _get_cache_key. intros H. apply app_inj_tail_length in H as [Hi Hq].
  - split; [done|]. by injection Hq.
  - change (":" +:+ _get_query_hash q1) with (String ":" (_get_query_hash q1)).
    change (":" +:+ _get_query_hash q2) with (String ":" (_get_query_hash q2)).
    simpl. by rewrite !(is_hexdigest_length _ (query_hash_shape _)).
Qed.

(** X1. Two composite keys are equal exactly when both the image hashes and
    the query hashes are equal: joining with a colon loses nothing. *)
Theorem cache_key_injective e1 e2 p1 p2 q1 q2 :
  _get_cache_key e1 p1 q1 = _get_cache_key e2 p2 q2
  <-> _get_image_hash e1 p1 = _get_image_hash e2 p2
      /\ _get_query_hash q1 = _get_query_hash q2.
Proof.
  split; [apply cache_key_inj|]. unfold _get_cache_key. by intros [-> ->].
Qed.

(** ** [get] *)

Lemma get_dict e p q w m :
  cache (self w) = JDict m ->
  get e p q w
  = (verdict_of (m !! _get_cache_key e p q),
     if m !! _get_cache_key e p q is Some _ then count_hit w else count_miss w).
Proof.
  intros Hc. unfold get; unfold_monad. rewrite Hc. simpl.
  destruct (m !! _get_cache_key e p q) as [entry|] eqn:Hk; simpl.
  - unfold count_hit, mbind, outcome_bind.
    destruct (Py.getitem entry "is_match"); [|done].
    by destruct (Py.getitem entry "explanation").
  - done.
Qed.

(** X2. When the cache holds, under the key of the lookup, a value that is
    not a mapping or that lacks "is_match" or "explanation", [get] raises
    [TypeError] or [KeyError] after it has counted the hit. *)
Theorem get_counts_hit_then_raises e p q w m v :
  cache (self w) = JDict m ->
  m !! _get_cache_key e p q = Some v ->
  is_entry v = false ->
  exists ex, get e p q w = (Raise ex, count_hit w)
             /\ (ex = TypeError \/ ex = KeyError).
Proof.
  intros Hc Hk Hv. rewrite (get_dict _ _ _ _ _ Hc), Hk. simpl.
  unfold mbind, outcome_bind.
  destruct v as [| | | | | |fields]; simpl;
    try by (eexists; split; [done|by left]).
  simpl in Hv.
  destruct (fields !! "is_match") as [a|] eqn:Ha;
    [|by eexists; split; [done|right]].
  destruct (fields !! "explanation") as [b|] eqn:Hb;
    [|by eexists; split; [done|right]].
  rewrite !bool_decide_true in Hv by eauto. done.
Qed.

(** ** [set] *)

(** X3. A second [set] for the same image and query replaces the entry of
    the first: the cache has the same keys as after the first [set], and
    [get] returns the second verdict. *)
Theorem set_overwrites e1 e2 e3 p q b1 x1 b2 x2 w :
  Py.is_dict (cache (self w)) = true ->
  files e2 p = files e1 p ->
  files e3 p = files e1 p ->
  exists w1 w2 m1 m2,
    set e1 p q b1 x1 w = (Return tt, w1)
    /\ set e2 p q b2 x2 w1 = (Return tt, w2)
    /\ cache (self w1) = JDict m1
    /\ cache (self w2) = JDict m2
    /\ dom m2 = dom m1
    /\ get e3 p q w2 = (Return (Some (JBool b2, JStr x2)), count_hit w2).
Proof.
  intros Hd H2 H3.
  destruct (cache (self w)) as [| | | | | |m] eqn:Hc; try done.
  assert (K2 : _get_cache_key e2 p q = _get_cache_key e1 p q).
  { apply cache_key_same_hash. unfold _get_image_hash. by rewrite H2. }
  assert (K3 : _get_cache_key e3 p q = _get_cache_key e1 p q).
  { apply cache_key_same_hash. unfold _get_image_hash. by rewrite H3. }
  do 4 eexists. split; [by apply set_spec|].
  split; [by apply set_spec|]. split; [done|]. split; [done|].
  split.
  - by rewrite K2, insert_insert_eq, !dom_insert_L.
  - eapply (get_hit _ _ _ _ _ _ (JBool b2) (JStr x2)); [simpl; done| | |].
    + rewrite K3, K2. apply lookup_insert_eq.
    + reflexivity.
    + reflexivity.
Qed.

(** X4. [set] leaves the other entries alone: a lookup under a different
    composite key returns after the [set] what it returned before. *)
Theorem set_keeps_other_entries e e' p q b x p' q' w :
  Py.is_dict (cache (self w)) = true ->
  _get_cache_key e' p' q' <> _get_cache_key e p q ->
  exists w1, set e p q b x w = (Return tt, w1)
             /\ (get e' p' q' w1).1 = (get e' p' q' w).1.
Proof.
  intros Hd Hne.
  destruct (cache (self w)) as [| | | | | |m] eqn:Hc; try done.
  eexists. split; [by apply set_spec|].
  erewrite !get_dict; [|exact Hc|reflexivity]. simpl.
  by rewrite lookup_insert_ne.
Qed.

(** ** What changes what *)

Lemma exec_stats_not_get e c w :
  is_get c = false -> stats (self (exec e c w)) = stats (self w).
Proof.
  destruct c; simpl; try done; intros _.
  - destruct (set_world e image_path expanded_query is_match explanation w)
      as [->|(m & _ & ->)]; done.
  - unfold save. by rewrite save_cache_self.
  - by rewrite get_stats_world.
  - destruct (clear_old_entries_world e days w) as [->|(m & kept & _ & _ & ->)];
      [done|]. by rewrite save_cache_self.
  - destruct (clear_by_query_world e expanded_query w)
      as [->|(m & kept & _ & _ & ->)]; [done|]. by rewrite save_cache_self.
  - destruct (clear_all_world e w) as [->| ->]; [done|].
    by rewrite save_cache_self.
  - by rewrite get_queries_analyzed_world.
Qed.

Lemma exec_disk_not_writes e c w : writes c = false -> disk (exec e c w) = disk w.
Proof.
  destruct c; simpl; try done; intros _.
  - destruct (get_world e image_path expanded_query w) as [->|(s & -> & _)]; done.
  - destruct (set_world e image_path expanded_query is_match explanation w)
      as [->|(m & _ & ->)]; done.
  - by rewrite get_stats_world.
  - by rewrite get_queries_analyzed_world.
Qed.

(** X5. Only [save] and the three clear operations write the cache file: a
    run of other calls ([get], [set], [get_stats], [get_queries_analyzed])
    leaves the file as it was, so what [set] stored is not on disk until a
    later [save]. *)
Theorem file_written_only_by_save_and_clear calls w :
  Forall (fun ec => writes ec.2 = false) calls ->
  disk (run calls w) = disk w.
Proof.
  intros H. revert w. induction H as [|[e c] calls Hc _ IH]; intros w; [done|].
  simpl. rewrite IH. by apply exec_disk_not_writes.
Qed.

(** X6. On a cache that is a mapping every [get] adds one to exactly one of
    the two counters and no other call changes them: after a run, hits plus
    misses has grown by the number of [get] calls, and neither counter has
    decreased. *)
Theorem lookups_are_counted calls w :
  Py.is_dict (cache (self w)) = true ->
  let s := stats (self w) in
  let s' := stats (self (run calls w)) in
  hits s' + misses s' = hits s + misses s + count_gets calls
  /\ hits s <= hits s' /\ misses s <= misses s'.
Proof.
  intros Hd. cbv zeta. revert w Hd.
  induction calls as [|[e c] calls IH]; intros w Hd; simpl; [lia|].
  destruct (cache (self w)) as [| | | | | |m] eqn:Hc; try done.
  destruct (exec_dict e c w m Hc) as (m' & Hc' & _).
  specialize (IH (exec e c w)). rewrite Hc' in IH. specialize (IH eq_refl).
  destruct (is_get c) eqn:Hg.
  - destruct c; try done. simpl in *.
    rewrite (get_dict _ _ _ _ _ Hc) in *. simpl in *.
    destruct (m !! _); simpl in IH; lia.
  - rewrite (exec_stats_not_get e c w Hg) in IH. lia.
Qed.

(** ** Calls that raise *)

Lemma set_raised e p q b x w : raised (set e p q b x w) -> (set e p q b x w).2 = w.
Proof.
  intros [ex H].
  destruct (cache (self w)) as [| | | | | |m] eqn:Hc;
    try (unfold set; unfold_monad; simpl; by rewrite Hc).
  by rewrite (set_spec _ _ _ _ _ _ _ Hc) in H.
Qed.

Lemma save_cache_returns e w : (_save_cache e w).1 = Return tt.
Proof. by rewrite save_cache_spec. Qed.

Lemma clear_old_entries_raised e days w :
  raised (clear_old_entries e days w) -> (clear_old_entries e days w).2 = w.
Proof.
  intros [ex H]. revert H. unfold clear_old_entries; unfold_monad.
  destruct (minus_days (now e) days) as [cutoff|]; simpl; [|done].
  destruct (Py.len (cache (self w))); simpl; [|done].
  destruct (Py.items (cache (self w))); simpl; [|done].
  destruct (Py.dict_where _ _); simpl; [|done].
  by rewrite save_cache_spec.
Qed.

Lemma clear_by_query_raised e q w :
  raised (clear_by_query e q w) -> (clear_by_query e q w).2 = w.
Proof.
  intros [ex H]. revert H. unfold clear_by_query; unfold_monad.
  destruct (Py.len (cache (self w))); simpl; [|done].
  destruct (Py.items (cache (self w))); simpl; [|done].
  by rewrite save_cache_spec.
Qed.

Lemma clear_all_raised e w : raised (clear_all e w) -> (clear_all e w).2 = w.
Proof.
  intros [ex H]. revert H. unfold clear_all; unfold_monad.
  destruct (Py.len (cache (self w))); simpl; [|done].
  by rewrite save_cache_spec.
Qed.

Lemma get_raised e p q w :
  raised (get e p q w) ->
  (get e p q w).2 = w \/ (get e p q w).2 = count_hit w.
Proof.
  intros [ex H]. revert H. unfold get; unfold_monad. simpl.
  destruct (Py.contains _ _) as [[]|]; simpl; [| |by left].
  - intros _. right.
    destruct (Py.getitem (cache (self w)) _) as [entry|]; simpl; [|done].
    destruct (Py.getitem entry "is_match"); simpl; [|done].
    by destruct (Py.getitem entry "explanation").
  - done.
Qed.

(** X7. A call that raises has changed nothing, with one exception: [get]
    may already have counted its hit.  In particular a sweep
    ([clear_old_entries], [clear_by_query], [clear_all]) that raises has
    removed no entry and written nothing, and [save] never raises. *)
Theorem raising_call_changes_nothing e w :
  (forall p q, raised (get e p q w) ->
               (get e p q w).2 = w \/ (get e p q w).2 = count_hit w)
  /\ (forall p q b x, raised (set e p q b x w) -> (set e p q b x w).2 = w)
  /\ ~ raised (save e w)
  /\ (get_stats e w).2 = w
  /\ (forall days, raised (clear_old_entries e days w) ->
                   (clear_old_entries e days w).2 = w)
  /\ (forall q, raised (clear_by_query e q w) -> (clear_by_query e q w).2 = w)
  /\ (raised (clear_all e w) -> (clear_all e w).2 = w)
  /\ (get_queries_analyzed w).2 = w.
Proof.
  split; [intros; by apply get_raised|].
  split; [intros; by apply set_raised|].
  split; [intros [ex H]; unfold save in H; by rewrite save_cache_returns in H|].
  split; [apply get_stats_world|].
  split; [intros; by apply clear_old_entries_raised|].
  split; [intros; by apply clear_by_query_raised|].
  split; [apply clear_all_raised|apply get_queries_analyzed_world].
Qed.

(** ** Persisting and reloading *)




(** X9. [clear_all] on a cache that has a length returns that length and
    leaves an empty mapping, also when the cache was a list or a string;
    every later [get] is a miss.  With a writable file the empty cache is
    saved at once: a new object constructed from the file starts empty. *)
Theorem clear_all_empties e w n :
  Py.len (cache (self w)) = Return n ->
  exists w',
    clear_all e w = (Return n, w')
    /\ cache (self w') = JDict ∅
    /\ stats (self w') = stats (self w)
    /\ (forall e' p q, get e' p q w' = (Return None, count_miss w'))
    /\ (writable e = true -> cache (self (__init__ (disk w'))) = JDict ∅)
    /\ (writable e = false -> disk w' = disk w).
Proof.
  intros Hn. eexists. unfold clear_all; unfold_monad. rewrite Hn. simpl.
  rewrite save_cache_spec. simpl. split; [done|]. split; [done|]. split; [done|].
  split; [|split].
  - intros e' p q. by erewrite get_dict by done.
  - intros ->. simpl. by apply load_wrapped.
  - by intros ->.
Qed.





(** X11. After [clear_by_query] of a query, a lookup with that query is a
    miss for every image, whatever the files hold. *)
Theorem cleared_query_misses e q w m :
  cache (self w) = JDict m ->
  exists n w',
    clear_by_query e q w = (Return n, w')
    /\ forall e' p, get e' p q w' = (Return None, count_miss w').
Proof.
  intros Hc. destruct (clear_by_query_spec e q w m Hc) as (w' & Hr & Hc' & _).
  do 2 eexists. split; [exact Hr|]. intros e' p.
  rewrite (get_dict _ _ _ _ _ Hc').
  assert (Hk : filter (fun kv => Str.endswith kv.1 (":" +:+ _get_query_hash q) = false) m
               !! _get_cache_key e' p q = None).
  { apply map_lookup_filter_None. right. intros v _. simpl.
    unfold _get_cache_key. by rewrite endswith_app. }
  by rewrite Hk.
Qed.

(** ** The sweep by age *)

Lemma keep_where_filter p (l : list (string * json)) :
  (forall key v, (key, v) ∈ l -> exists b, p key v = Return b) ->
  Py.keep_where p l
  = Return (filter (fun kv => p kv.1 kv.2 = Return true) l).
Proof.
  induction l as [|[k v] l IH]; intros H; [done|].
  simpl. unfold mbind, outcome_bind.
  destruct (H k v) as [b Hb]; [left|]. rewrite Hb.
  rewrite IH by (intros; apply H; by right).
  rewrite filter_cons. simpl. rewrite Hb.
  destruct b; [by rewrite decide_True|by rewrite decide_False].
Qed.

Lemma dict_where_filter p (m : gmap string json) :
  (forall key v, m !! key = Some v -> exists b, p key v = Return b) ->
  Py.dict_where p m
  = Return (filter (fun kv => p kv.1 kv.2 = Return true) m).
Proof.
  intros H. unfold Py.dict_where, mbind, outcome_bind.
  rewrite keep_where_filter.
  - by rewrite <- map_filter_alt.
  - intros key v Hin. apply H. by apply elem_of_map_to_list.
Qed.

(** X12. When the cutoff [now - days] exists and the condition
    [fromisoformat(value["timestamp"]) > cutoff] can be evaluated for every
    entry, [clear_old_entries] keeps exactly the entries for which it holds,
    leaves them unchanged, and returns the number of entries removed. *)
Theorem clear_old_entries_keeps_recent e days w m cutoff :
  cache (self w) = JDict m ->
  minus_days (now e) days = Some cutoff ->
  (forall key v, m !! key = Some v -> exists b, is_recent cutoff key v = Return b) ->
  exists w' kept,
    clear_old_entries e days w
    = (Return (Z.of_nat (size m) - Z.of_nat (size kept)), w')
    /\ cache (self w') = JDict kept
    /\ stats (self w') = stats (self w)
    /\ (forall key v, kept !! key = Some v
                      <-> m !! key = Some v
                          /\ is_recent cutoff key v = Return true)
    /\ Z.of_nat (size m) - Z.of_nat (size kept)
       = Z.of_nat (size (filter (fun kv => is_recent cutoff kv.1 kv.2
                                           = Return false) m)).
Proof.
  intros Hc Hcut Hall.
  exists (_save_cache e (with_cache
            (JDict (filter (fun kv => is_recent cutoff kv.1 kv.2 = Return true) m))
            w)).2.
  exists (filter (fun kv => is_recent cutoff kv.1 kv.2 = Return true) m).
  split; [|split; [|split; [|split]]].
  - unfold clear_old_entries; unfold_monad. rewrite Hcut, Hc. simpl.
    rewrite (dict_where_filter _ _ Hall). simpl.
    unfold with_cache. by rewrite save_cache_spec.
  - by rewrite save_cache_self.
  - by rewrite save_cache_self.
  - intros key v. apply map_lookup_filter_Some.
  - rewrite (size_filter_complement
               (fun kv => is_recent cutoff kv.1 kv.2 = Return true) m).
    assert (Hf : filter (fun kv => ~ is_recent cutoff kv.1 kv.2 = Return true) m
                 = filter (fun kv => is_recent cutoff kv.1 kv.2 = Return false) m).
    { apply map_filter_ext. intros key v Hk. simpl.
      destruct (Hall key v Hk) as [[] ->]; naive_solver. }
    rewrite Hf. lia.
Qed.

(** ** [get_queries_analyzed] on any mapping *)

Lemma cut_None sep s : Str.cut sep s = None <-> Str.count sep s = 0%nat.
Proof.
  induction s as [|c s IH]; simpl; [done|].
  destruct (Ascii.eqb c sep); [done|].
  destruct (Str.cut sep s) as [[a b]|]; simpl.
  - split; [done|]. intros H. by apply IH in H.
  - split; [intros _; by apply IH|done].
Qed.

Lemma query_hash_of_cases key :
  (Str.count ":" key = 0%nat /\ query_hash_of key = Raise ValueError)
  \/ (exists a h, key = a +:+ ":" +:+ h /\ Str.count ":" a = 0%nat
                  /\ query_hash_of key = Return h).
Proof.
  unfold query_hash_of, Str.split1.
  destruct (Str.cut ":" key) as [[a h]|] eqn:E.
  - right. apply cut_inv in E as [-> Ha]. by exists a, h.
  - left. split; [by apply cut_None|done].
Qed.

Lemma for_each_query_hash_raises (l : list string) key :
  key ∈ l -> Str.count ":" key = 0%nat ->
  Py.for_each query_hash_of l = Raise ValueError.
Proof.
  intros Hin Hk. induction l as [|k l IH]; [by apply not_elem_of_nil in Hin|].
  simpl. unfold mbind, outcome_bind.
  destruct (query_hash_of_cases k) as [[_ ->]|(a & h & Heq & _ & ->)]; [done|].
  apply elem_of_cons in Hin as [->|Hin].
  - rewrite Heq, !count_app in Hk. simpl in Hk. lia.
  - by rewrite (IH Hin).
Qed.

Lemma for_each_query_hash_returns (l : list string) :
  (forall key, key ∈ l -> Str.count ":" key <> 0%nat) ->
  exists hs,
    Py.for_each query_hash_of l = Return hs
    /\ forall h, h ∈ hs
                 <-> exists key a, key ∈ l /\ key = a +:+ ":" +:+ h
                                   /\ Str.count ":" a = 0%nat.
Proof.
  induction l as [|k l IH]; intros H.
  - exists []. split; [done|]. intros h. split.
    + by intros ?%not_elem_of_nil.
    + by intros (key & a & ?%not_elem_of_nil & _).
  - destruct IH as (hs & Hhs & Hin); [intros; apply H; by right|].
    destruct (query_hash_of_cases k) as [[Hk _]|(a & h0 & -> & Ha & Hq)].
    { destruct (H k); [left|done]. }
    exists (h0 :: hs). simpl. unfold mbind, outcome_bind. rewrite Hq, Hhs.
    split; [done|]. intros h. rewrite elem_of_cons, Hin. split.
    + intros [->|(key & a' & Hkey & Heq & Ha')].
      * exists (a +:+ ":" +:+ h0), a. split; [left|done].
      * exists key, a'. split; [by right|done].
    + intros (key & a' & [->|Hkey]%elem_of_cons & Heq & Ha').
      * left.
        change (":" +:+ h) with (String ":" h) in Heq.
        change (":" +:+ h0) with (String ":" h0) in Heq.
        pose proof (cut_app ":" a h0 Ha) as C1.
        pose proof (cut_app ":" a' h Ha') as C2.
        rewrite Heq, C2 in C1. by injection C1.
      * right. eauto.
Qed.

(** X13. On a cache that is a mapping, [get_queries_analyzed] raises
    [ValueError] as soon as one key has no colon, and changes nothing;
    when every key has a colon it returns, without repeats, what follows
    the first colon of each key. *)
Theorem get_queries_analyzed_dict w m :
  cache (self w) = JDict m ->
  ((exists key, is_Some (m !! key) /\ Str.count ":" key = 0%nat) ->
   get_queries_analyzed w = (Raise ValueError, w))
  /\ ((forall key, is_Some (m !! key) -> Str.count ":" key <> 0%nat) ->
      exists hashes : gset string,
        get_queries_analyzed w = (Return hashes, w)
        /\ forall h, h ∈ hashes
                     <-> exists key a, is_Some (m !! key)
                                       /\ key = a +:+ ":" +:+ h
                                       /\ Str.count ":" a = 0%nat).
Proof.
  intros Hc. split.
  - intros (key & Hk & Hcount).
    unfold get_queries_analyzed; unfold_monad. rewrite Hc. simpl.
    rewrite (for_each_query_hash_raises _ key); [done| |done].
    by apply elem_of_elements, elem_of_dom.
  - intros Hall.
    destruct (for_each_query_hash_returns (elements (dom m))) as (hs & Hhs & Hin).
    { intros key Hk%elem_of_elements%elem_of_dom. by apply Hall. }
    exists (list_to_set hs). split.
    + unfold get_queries_analyzed; unfold_monad. rewrite Hc. simpl. by rewrite Hhs.
    + intros h. rewrite elem_of_list_to_set, Hin.
      by setoid_rewrite elem_of_elements; setoid_rewrite elem_of_dom.
Qed.

(** ** Files that do not hold a mapping *)

(** X14. Construction accepts any JSON value: a file whose top level is
    not an object becomes the cache as it is.  On such a cache [set] raises
    [TypeError], [get_queries_analyzed] raises [AttributeError], and the
    sweeps [clear_by_query] and [clear_old_entries] raise; none of them
    changes anything. *)
Theorem file_without_mapping e data :
  Py.is_dict data = false ->
  let w := __init__ (Some (Document data)) in
  cache (self w) = data
  /\ (forall p q b x, set e p q b x w = (Raise TypeError, w))
  /\ get_queries_analyzed w = (Raise AttributeError, w)
  /\ (forall q, exists ex, clear_by_query e q w = (Raise ex, w))
  /\ (forall days, exists ex, clear_old_entries e days w = (Raise ex, w)).
Proof.
  intros Hd. cbv zeta.
  assert (Hc : cache (self (__init__ (Some (Document data)))) = data).
  { destruct data; try done. }
  split; [done|].
  remember (__init__ (Some (Document data))) as w eqn:Hw. clear Hw.
  split; [|split; [|split]].
  - intros p q b x. unfold set; unfold_monad. simpl. rewrite Hc.
    by destruct data.
  - unfold get_queries_analyzed; unfold_monad. simpl. rewrite Hc.
    by destruct data.
  - intros q. unfold clear_by_query; unfold_monad. simpl. rewrite Hc.
    destruct data; simpl; try done; eauto.
  - intros days. unfold clear_old_entries; unfold_monad.
    destruct (minus_days (now e) days); simpl; [|eauto]. rewrite Hc.
    destruct data; simpl; try done; eauto.
Qed.

(** ** The documents written *)





(** ** The command line *)



End MoreProperties.

(** ** Instances of the theorems above *)

Lemma get_counts_hit_then_raises_witness :
  let w := __init__ (Some Sample2.broken_file) in
  exists ex, get Sample.e "photo1.jpg" "ocean scene" w = (Raise ex, count_hit w)
             /\ (ex = TypeError \/ ex = KeyError).
Proof.
  cbv zeta.
  apply (get_counts_hit_then_raises Sample.e "photo1.jpg" "ocean scene"
           (__init__ (Some Sample2.broken_file))
           (<[Sample.recent_key := JStr "not an entry"]> ∅)
           (JStr "not an entry")).
  - vm_compute. reflexivity.
  - unfold Sample.recent_key. apply lookup_insert_eq.
  - reflexivity.
Defined.

Lemma set_overwrites_witness :
  exists w1 w2 m1 m2,
    set Sample.e "photo1.jpg" "ocean scene" false "fog" Sample.fresh = (Return tt, w1)
    /\ set Sample.e "photo1.jpg" "ocean scene" true "water visible" w1
       = (Return tt, w2)
    /\ cache (self w1) = JDict m1
    /\ cache (self w2) = JDict m2
    /\ dom m2 = dom m1
    /\ get Sample.e "photo1.jpg" "ocean scene" w2
       = (Return (Some (JBool true, JStr "water visible")), count_hit w2).
Proof.
  apply (set_overwrites Sample.e Sample.e Sample.e); reflexivity.
Defined.

Lemma set_keeps_other_entries_witness :
  exists w1,
    set Sample.e "photo1.jpg" "mountain scene" false "no peaks"
        (exec Sample.e (Set_ "photo1.jpg" "ocean scene" true "water visible")
              Sample.fresh)
    = (Return tt, w1)
    /\ (get Sample.e "photo1.jpg" "ocean scene" w1).1
       = Return (Some (JBool true, JStr "water visible")).
Proof.
  destruct (set_keeps_other_entries Sample.e Sample.e
              "photo1.jpg" "mountain scene" false "no peaks"
              "photo1.jpg" "ocean scene"
              (exec Sample.e (Set_ "photo1.jpg" "ocean scene" true "water visible")
                    Sample.fresh))
    as (w1 & Hs & Hg).
  - reflexivity.
  - vm_compute. discriminate.
  - exists w1. split; [exact Hs|]. rewrite Hg. vm_compute. reflexivity.
Defined.

Lemma file_written_only_by_save_and_clear_witness :
  disk (run [(Sample.e, Set_ "photo1.jpg" "ocean scene" true "water visible");
             (Sample.e, Get "photo1.jpg" "ocean scene");
             (Sample.e, GetStats);
             (Sample.e, GetQueriesAnalyzed)]
            Sample.fresh)
  = None.
Proof.
  rewrite file_written_only_by_save_and_clear; [reflexivity|].
  repeat constructor.
Defined.

Lemma lookups_are_counted_witness :
  let w := run [(Sample.e, Set_ "photo1.jpg" "ocean scene" true "water visible");
                (Sample.e, Get "photo1.jpg" "ocean scene");
                (Sample.e, ClearByQuery "ocean scene");
                (Sample.e, Get "photo1.jpg" "ocean scene");
                (Sample.e, Get "gone.jpg" "mountain scene")]
               Sample.fresh in
  hits (stats (self w)) + misses (stats (self w)) = 3.
Proof.
  cbv zeta.
  destruct (lookups_are_counted
              [(Sample.e, Set_ "photo1.jpg" "ocean scene" true "water visible");
               (Sample.e, Get "photo1.jpg" "ocean scene");
               (Sample.e, ClearByQuery "ocean scene");
               (Sample.e, Get "photo1.jpg" "ocean scene");
               (Sample.e, Get "gone.jpg" "mountain scene")]
              Sample.fresh eq_refl) as (H & _).
  exact H.
Defined.

Lemma clear_all_empties_witness :
  exists w',
    clear_all Sample.e (__init__ (Some Sample.aged_file)) = (Return 2, w')
    /\ cache (self w') = JDict ∅
    /\ cache (self (__init__ (disk w'))) = JDict ∅.
Proof.
  destruct (clear_all_empties Sample.e (__init__ (Some Sample.aged_file)) 2)
    as (w' & Hr & Hc & _ & _ & Hl & _).
  - vm_compute. reflexivity.
  - exists w'. split; [exact Hr|]. split; [exact Hc|]. by apply Hl.
Defined.


Lemma cleared_query_misses_witness :
  exists n w',
    clear_by_query Sample.e "ocean scene" (__init__ (Some Sample.aged_file))
    = (Return n, w')
    /\ get Sample.e "photo1.jpg" "ocean scene" w' = (Return None, count_miss w').
Proof.
  destruct (cleared_query_misses Sample.e "ocean scene"
              (__init__ (Some Sample.aged_file)) Sample2.aged eq_refl)
    as (n & w' & Hr & Hg).
  exists n, w'. split; [exact Hr|apply Hg].
Defined.

Lemma clear_old_entries_keeps_recent_witness :
  exists w' kept,
    clear_old_entries Sample.e 30 (__init__ (Some Sample.aged_file))
    = (Return (2 - Z.of_nat (size kept)), w')
    /\ cache (self w') = JDict kept
    /\ kept !! Sample.recent_key
       = Some (Sample.entry_at "2026-10-20T08:00:00.500000")
    /\ kept !! Sample.old_key = None.
Proof.
  destruct (clear_old_entries_keeps_recent Sample.e 30
              (__init__ (Some Sample.aged_file)) Sample2.aged Sample2.cutoff)
    as (w' & kept & Hr & Hc & _ & Hiff & _).
  - reflexivity.
  - vm_compute. reflexivity.
  - intros key v H. unfold Sample2.aged in H.
    apply lookup_insert_Some in H as [[<- <-]|[_ H]];
      [eexists; vm_compute; reflexivity|].
    apply lookup_insert_Some in H as [[<- <-]|[_ H]];
      [eexists; vm_compute; reflexivity|].
    by rewrite lookup_empty in H.
  - exists w', kept. split; [exact Hr|]. split; [exact Hc|]. split.
    + apply Hiff. split; [vm_compute; reflexivity|vm_compute; reflexivity].
    + destruct (kept !! Sample.old_key) as [v|] eqn:E; [|reflexivity].
      apply Hiff in E as [Hm Hrec].
      assert (Hv : v = Sample.entry_at "2026-09-01T08:00:00").
      { unfold Sample2.aged in Hm. rewrite lookup_insert_eq in Hm.
        by injection Hm. }
      subst v. vm_compute in Hrec. discriminate Hrec.
Defined.

Lemma get_queries_analyzed_dict_witness :
  let w := __init__ (Some Sample2.odd_keys_file) in
  get_queries_analyzed w = (Raise ValueError, w).
Proof.
  cbv zeta.
  destruct (get_queries_analyzed_dict (__init__ (Some Sample2.odd_keys_file))
              (<["README" := Sample.bad_entry]> ∅) eq_refl) as [H _].
  apply H. exists "README". split; [|reflexivity].
  rewrite lookup_insert_eq. eauto.
Defined.

Lemma file_without_mapping_witness :
  let w := __init__ (Some (Document JNull)) in
  cache (self w) = JNull
  /\ set Sample.e "photo1.jpg" "ocean scene" true "water visible" w
     = (Raise TypeError, w).
Proof.
  cbv zeta.
  destruct (file_without_mapping Sample.e JNull eq_refl) as (Hc & Hs & _).
  split; [exact Hc|apply Hs].
Defined.


(** * Text that UTF-8 cannot encode

    The fingerprinting, [get] and [set] once more, with Python's [str] as a
    sequence of code points and [str.encode()] as it is: strict UTF-8, which
    raises [UnicodeEncodeError] at a lone surrogate.  Such text reaches the
    class: a file name that is not valid UTF-8 is read from the directory
    with its bad bytes as lone surrogates. *)

Module Unicode.

(** Python's [str]: a sequence of code points, lone surrogates included. *)
Definition str : Type := list Z.

Definition is_surrogate (cp : Z) : bool := (0xD800 <=? cp) && (cp <=? 0xDFFF).

(** The UTF-8 bytes of one code point. *)
Definition utf8 (cp : Z) : list byte :=
  if cp <? 0x80 then [MD5.byte_of_Z cp]
  else if cp <? 0x800 then
    [MD5.byte_of_Z (0xC0 + cp / 64); MD5.byte_of_Z (0x80 + cp mod 64)]
  else if cp <? 0x10000 then
    [MD5.byte_of_Z (0xE0 + cp / 4096); MD5.byte_of_Z (0x80 + cp / 64 mod 64);
     MD5.byte_of_Z (0x80 + cp mod 64)]
  else
    [MD5.byte_of_Z (0xF0 + cp / 262144); MD5.byte_of_Z (0x80 + cp / 4096 mod 64);
     MD5.byte_of_Z (0x80 + cp / 64 mod 64); MD5.byte_of_Z (0x80 + cp mod 64)].

(** [s.encode()]: UTF-8 with the default error handler, which raises at the
    first surrogate. *)
Fixpoint encode (s : str) : outcome (list byte) :=
  match s with
  | [] => Return []
  | cp :: s' =>
      if is_surrogate cp then Raise UnicodeEncodeError
      else
        rest ← encode s';
        Return (utf8 cp ++ rest)
  end.

(** The [string] that stands for the text in the rest of the file: the bytes
    of its code points, a surrogate written like any code point of its
    range.  It is what [str(image_path)] stores and what names the file for
    [open]. *)
Definition to_string (s : str) : string :=
  String.string_of_list_byte (flat_map utf8 s).

(** The text of an ASCII string. *)
Definition of_ascii (s : string) : str :=
  map (fun b => Z.of_N (Byte.to_N b)) (String.list_byte_of_string s).

Section Methods.

Context `{DT : DateTime}.

Definition _get_image_hash (e : env) (image_path : str) : outcome string :=
  match
    f ← files e (to_string image_path);
    let content := take (Z.to_nat (1024 * 1024)) f in
    Return (MD5.hexdigest content)
  with
  | Return h => Return h
  | Raise _ =>
      content ← encode image_path;
      Return (MD5.hexdigest content)
  end.

Definition _get_query_hash (expanded_query : str) : outcome string :=
  content ← encode expanded_query;
  Return (MD5.hexdigest content).

Definition _get_cache_key (e : env) (image_path expanded_query : str)
  : outcome string :=
  img_hash ← _get_image_hash e image_path;
  query_hash ← _get_query_hash expanded_query;
  Return (img_hash +:+ ":" +:+ query_hash).

Definition get (e : env) (image_path expanded_query : str)
  : M (option (json * json)) :=
  cache_key ← lift (_get_cache_key e image_path expanded_query);
  c ← get_cache;
  found ← lift (Py.contains c cache_key);
  s ← get_stats_dict;
  if found : bool then
    put_stats {| hits := hits s + 1; misses := misses s;
                 total_queries := total_queries s |};;
    entry ← lift (Py.getitem c cache_key);
    is_match ← lift (Py.getitem entry "is_match");
    explanation ← lift (Py.getitem entry "explanation");
    mret (Some (is_match, explanation))
  else
    put_stats {| hits := hits s; misses := misses s + 1;
                 total_queries := total_queries s |};;
    mret None.

Definition set (e : env) (image_path expanded_query : str)
    (is_match : bool) (explanation : string) : M unit :=
  cache_key ← lift (_get_cache_key e image_path expanded_query);
  c ← get_cache;
  c' ← lift (Py.setitem c cache_key
               (new_entry e (to_string image_path) is_match explanation));
  put_cache c'.

End Methods.

End Unicode.

(** A path whose first character is the lone surrogate U+DC80 (the byte
    0x80 of a file name that is not UTF-8), and a query with a lone
    surrogate. *)
Definition surrogate_path : Unicode.str := 0xDC80 :: Unicode.of_ascii ".jpg".
Definition surrogate_query : Unicode.str := Unicode.of_ascii "ocean " ++ [0xD83C].

Section Surrogates.

Context `{DT : DateTime}.

Lemma encode_text s :
  Forall (fun cp => Unicode.is_surrogate cp = false) s ->
  Unicode.encode s = Return (Str.encode (Unicode.to_string s)).
Proof.
  intros H. unfold Str.encode, Unicode.to_string.
  rewrite String.list_byte_of_string_of_list_byte.
  induction H as [|cp s Hcp _ IH]; [done|].
  simpl. rewrite Hcp. unfold mbind, outcome_bind. by rewrite IH.
Qed.

Lemma encode_surrogate s :
  Exists (fun cp => Unicode.is_surrogate cp = true) s ->
  Unicode.encode s = Raise UnicodeEncodeError.
Proof.
  induction 1 as [cp s Hcp|cp s _ IH]; simpl.
  - by rewrite Hcp.
  - destruct (Unicode.is_surrogate cp); [done|].
    unfold mbind, outcome_bind. by rewrite IH.
Qed.

(** On text without surrogates the two models agree. *)
Lemma image_hash_text e p :
  Forall (fun cp => Unicode.is_surrogate cp = false) p ->
  Unicode._get_image_hash e p = Return (_get_image_hash e (Unicode.to_string p)).
Proof.
  intros Hp. unfold Unicode._get_image_hash, _get_image_hash.
  destruct (files e (Unicode.to_string p)); simpl; [done|].
  unfold mbind, outcome_bind. by rewrite (encode_text _ Hp).
Qed.

Lemma cache_key_text e p q :
  Forall (fun cp => Unicode.is_surrogate cp = false) p ->
  Forall (fun cp => Unicode.is_surrogate cp = false) q ->
  Unicode._get_cache_key e p q
  = Return (_get_cache_key e (Unicode.to_string p) (Unicode.to_string q)).
Proof.
  intros Hp Hq. unfold Unicode._get_cache_key, Unicode._get_query_hash.
  rewrite (image_hash_text _ _ Hp), (encode_text _ Hq). done.
Qed.

Lemma get_text e p q :
  Forall (fun cp => Unicode.is_surrogate cp = false) p ->
  Forall (fun cp => Unicode.is_surrogate cp = false) q ->
  Unicode.get e p q = get e (Unicode.to_string p) (Unicode.to_string q).
Proof.
  intros Hp Hq. unfold Unicode.get. by rewrite (cache_key_text _ _ _ Hp Hq).
Qed.

Lemma set_text e p q b x :
  Forall (fun cp => Unicode.is_surrogate cp = false) p ->
  Forall (fun cp => Unicode.is_surrogate cp = false) q ->
  Unicode.set e p q b x = set e (Unicode.to_string p) (Unicode.to_string q) b x.
Proof.
  intros Hp Hq. unfold Unicode.set. by rewrite (cache_key_text _ _ _ Hp Hq).
Qed.

(** The fallback of [_get_image_hash] raises on every unreadable file whose
    path holds a lone surrogate, and so do [get] and [set], which change
    nothing. *)
Lemma image_hash_unreadable_surrogate e p ex :
  files e (Unicode.to_string p) = Raise ex ->
  Exists (fun cp => Unicode.is_surrogate cp = true) p ->
  Unicode._get_image_hash e p = Raise UnicodeEncodeError
  /\ (forall q w, Unicode.get e p q w = (Raise UnicodeEncodeError, w))
  /\ (forall q b x w, Unicode.set e p q b x w = (Raise UnicodeEncodeError, w)).
Proof.
  intros Hf Hp.
  assert (H : Unicode._get_image_hash e p = Raise UnicodeEncodeError).
  { unfold Unicode._get_image_hash. rewrite Hf. simpl.
    unfold mbind, outcome_bind. by rewrite (encode_surrogate _ Hp). }
  split; [done|]. split; intros.
  - unfold Unicode.get, Unicode._get_cache_key. by rewrite H.
  - unfold Unicode.set, Unicode._get_cache_key. by rewrite H.
Qed.

(** A query with a lone surrogate makes [get] and [set] raise for every
    image, readable or not. *)
Lemma query_surrogate e p q :
  Exists (fun cp => Unicode.is_surrogate cp = true) q ->
  (forall w, exists ex, Unicode.get e p q w = (Raise ex, w))
  /\ (forall b x w, exists ex, Unicode.set e p q b x w = (Raise ex, w)).
Proof.
  intros Hq.
  assert (H : exists ex, Unicode._get_cache_key e p q = Raise ex).
  { unfold Unicode._get_cache_key, Unicode._get_query_hash, mbind, outcome_bind.
    destruct (Unicode._get_image_hash e p); [|eauto].
    rewrite (encode_surrogate _ Hq). eauto. }
  destruct H as [ex H]. split; intros; exists ex.
  - unfold Unicode.get. by rewrite H.
  - unfold Unicode.set. by rewrite H.
Qed.

End Surrogates.

(** C6. The image path "\udc80.jpg" names no readable file.  Fingerprinting
    it falls back to [str(image_path).encode()], which raises
    [UnicodeEncodeError] inside the handler: [_get_image_hash] raises, and
    [get] and [set] raise without counting or storing anything.  With a
    readable image and a query that holds a lone surrogate, [get] and [set]
    raise as well. *)
Theorem fallback_fingerprint_raises_on_lone_surrogate :
  files Sample.e (Unicode.to_string surrogate_path) = Raise OSError
  /\ Unicode._get_image_hash Sample.e surrogate_path = Raise UnicodeEncodeError
  /\ Unicode.get Sample.e surrogate_path (Unicode.of_ascii "ocean scene") Sample.fresh
     = (Raise UnicodeEncodeError, Sample.fresh)
  /\ Unicode.set Sample.e surrogate_path (Unicode.of_ascii "ocean scene")
       true "water visible" Sample.fresh
     = (Raise UnicodeEncodeError, Sample.fresh)
  /\ Unicode.get Sample.e (Unicode.of_ascii "photo1.jpg") surrogate_query Sample.fresh
     = (Raise UnicodeEncodeError, Sample.fresh)
  /\ Unicode.set Sample.e (Unicode.of_ascii "photo1.jpg") surrogate_query
       true "water visible" Sample.fresh
     = (Raise UnicodeEncodeError, Sample.fresh).
Proof. repeat split; vm_compute; reflexivity. Qed.

(** The same calls on text without surrogates are those of the first part
    of the file: the path "photo1.jpg" and the query "ocean scene". *)
Example unicode_set_then_get :
  let p := Unicode.of_ascii "photo1.jpg" in
  let q := Unicode.of_ascii "ocean scene" in
  Unicode.to_string p = "photo1.jpg"
  /\ Unicode.to_string q = "ocean scene"
  /\ Unicode._get_query_hash q = Return "399212b8d66c819d3bb722094e4403ff"
  /\ Unicode.set Sample.e p q true "water visible"
     = set Sample.e "photo1.jpg" "ocean scene" true "water visible".
Proof.
  cbv zeta. split; [reflexivity|]. split; [reflexivity|].
  split; [vm_compute; reflexivity|].
  apply (set_text Sample.e); repeat constructor.
Qed.
